(** * Presentation-layer components of the explorer frontend

    A shallow embedding of three React components:

    - [UserProfileDesktop] (ui/snippets/user/profile/UserProfileDesktop.tsx),
      the profile trigger and its click handler;
    - [ColumnsButton] (ui/advancedFilter/ColumnsButton.tsx), the column
      visibility picker;
    - [AddressDetails] (second module of the same file), the address
      summary panel.

    Event handlers are functions from the values captured by the closure to
    the list of collaborator calls they make, in program order.  Objects
    that are passed by reference live in an explicit heap.  A render is a
    function from props and hook results to a typed view tree. *)

From Stdlib Require Import ZArith List Ascii String DecimalString.
From Stdlib Require Import Floats.SpecFloat.
From stdpp Require Import gmap strings list fin_maps.

Import ListNotations.
Local Open Scope string_scope.

(** ** JavaScript built-ins used by the components *)

Module JS.

(** [Boolean(x)] for [x : T | undefined] where [T] is an object type:
    every object is truthy, [undefined] is falsy. *)
Definition Boolean_obj {T : Type} (x : option T) : bool :=
  match x with
  | Some _ => true
  | None => false
  end.

(** [Boolean(s)] for a string: only the empty string is falsy. *)
Definition Boolean_str (s : string) : bool :=
  match s with
  | EmptyString => false
  | String _ _ => true
  end.

(** [Boolean(x)] for [x : string | undefined]. *)
Definition Boolean_optstr (x : option string) : bool :=
  match x with
  | Some s => Boolean_str s
  | None => false
  end.

(** [ToString(x)] for [x : string | undefined], as applied by [+] and by
    template literals. *)
Definition ToString_optstr (x : option string) : string :=
  match x with
  | Some s => s
  | None => "undefined"
  end.

(** [Array.prototype.join(",")] on an array of strings. *)
Fixpoint join_comma (l : list string) : string :=
  match l with
  | [] => ""
  | [s] => s
  | s :: rest => s ++ "," ++ join_comma rest
  end.

(** *** Numbers

    A Number is an IEEE 754 binary64 value: [spec_float] at precision 53
    and maximal exponent 1024.  The Number of a literal is its mathematical
    value rounded to nearest, ties to even, at any number of digits. *)

Definition prec : Z := 53.
Definition emax : Z := 1024.

Definition NaN : spec_float := S754_nan.
Definition zero : spec_float := S754_zero false.

(** [Object.is(x, NaN)] *)
Definition Object_is_NaN (x : spec_float) : bool :=
  match x with
  | S754_nan => true
  | _ => false
  end.

(** [x > y]; false as soon as one side is NaN. *)
Definition gt (x y : spec_float) : bool := SFltb y x.

(** The Number value of the integer [z] (round to nearest, ties to
    even). *)
Definition of_Z (z : Z) : spec_float := binary_normalize prec emax z 0 false.

(** The Number value of [(-1)^s * m * 10^e]. *)
Definition of_decimal (s : bool) (m : N) (e : Z) : spec_float :=
  match m with
  | N0 => S754_zero s
  | Npos p =>
      if (0 <=? e)%Z then
        binary_round prec emax s (p * Z.to_pos (10 ^ e)) 0
      else
        SFdiv prec emax (S754_finite s p 0)
              (S754_finite false (Z.to_pos (10 ^ (- e))) 0)
  end.

(** Strings are read as sequences of UTF-8 code units. *)
Definition code_units (s : string) : list N :=
  map N_of_ascii (list_ascii_of_string s).

(** [StrWhiteSpaceChar]: TAB, LF, VT, FF, CR, SP, U+00A0, U+1680,
    U+2000..U+200A, U+2028, U+2029, U+202F, U+205F, U+3000, U+FEFF. *)
Fixpoint skip_StrWhiteSpace (l : list N) : list N :=
  match l with
  | (9 | 10 | 11 | 12 | 13 | 32)%N :: r => skip_StrWhiteSpace r
  | 194%N :: 160%N :: r => skip_StrWhiteSpace r
  | 225%N :: 154%N :: 128%N :: r => skip_StrWhiteSpace r
  | 226%N :: 128%N :: x :: r =>
      if ((128 <=? x) && (x <=? 138) || (x =? 168) || (x =? 169)
          || (x =? 175))%N
      then skip_StrWhiteSpace r else l
  | 226%N :: 129%N :: 159%N :: r => skip_StrWhiteSpace r
  | 227%N :: 128%N :: 128%N :: r => skip_StrWhiteSpace r
  | 239%N :: 187%N :: 191%N :: r => skip_StrWhiteSpace r
  | _ => l
  end.

(** The value of a digit character, for bases up to 16. *)
Definition digit_value (c : N) : option N :=
  if ((48 <=? c) && (c <=? 57))%N then Some (c - 48)%N
  else if ((97 <=? c) && (c <=? 102))%N then Some (c - 87)%N
  else if ((65 <=? c) && (c <=? 70))%N then Some (c - 55)%N
  else None.

(** The longest prefix of digits in [base]: its value (after [acc]), the
    number of digits read (after [n]) and the remaining input. *)
Fixpoint digits (base : N) (l : list N) (acc : N) (n : nat)
  : N * nat * list N :=
  match l with
  | c :: r =>
      match digit_value c with
      | Some d =>
          if (d <? base)%N then digits base r (acc * base + d)%N (S n)
          else (acc, n, l)
      | None => (acc, n, l)
      end
  | [] => (acc, n, l)
  end.

Fixpoint strip_prefix (p l : list N) : option (list N) :=
  match p, l with
  | [], _ => Some l
  | a :: p', b :: l' => if (a =? b)%N then strip_prefix p' l' else None
  | _ :: _, [] => None
  end.

(** [ExponentPart], when one starts the input: its value and the
    remaining input.  Without a well-formed exponent the value is 0 and
    nothing is consumed. *)
Definition ExponentPart (l : list N) : Z * list N :=
  match l with
  | (101 | 69)%N :: r =>
      let '(neg, r') :=
        match r with
        | 43%N :: r' => (false, r')
        | 45%N :: r' => (true, r')
        | _ => (false, r)
        end in
      match digits 10 r' 0 0 with
      | (_, O, _) => (0%Z, l)
      | (v, S _, rest) =>
          ((if neg then - Z.of_N v else Z.of_N v)%Z, rest)
      end
  | _ => (0%Z, l)
  end.

(** [StrUnsignedDecimalLiteral] with the sign [s] already read. *)
Definition StrUnsignedDecimalLiteral (s : bool) (l : list N)
  : option (spec_float * list N) :=
  match strip_prefix (code_units "Infinity") l with
  | Some rest => Some (S754_infinity s, rest)
  | None =>
      let '(int, ni, r1) := digits 10 l 0 0 in
      let '(m, nf, r2) :=
        match r1 with
        | 46%N :: r => digits 10 r int 0
        | _ => (int, O, r1)
        end in
      match (ni + nf)%nat with
      | O => None
      | S _ =>
          let '(e, r3) := ExponentPart r2 in
          Some (of_decimal s m (e - Z.of_nat nf), r3)
      end
  end.

(** [NonDecimalIntegerLiteral]: 0b, 0o and 0x literals, unsigned. *)
Definition NonDecimalIntegerLiteral (l : list N)
  : option (spec_float * list N) :=
  match l with
  | 48%N :: p :: r =>
      let base :=
        match p with
        | (98 | 66)%N => Some 2%N
        | (111 | 79)%N => Some 8%N
        | (120 | 88)%N => Some 16%N
        | _ => None
        end in
      match base with
      | Some b =>
          match digits b r 0 0 with
          | (_, O, _) => None
          | (v, S _, rest) => Some (of_Z (Z.of_N v), rest)
          end
      | None => None
      end
  | _ => None
  end.

Definition StrNumericLiteral (l : list N) : option (spec_float * list N) :=
  match NonDecimalIntegerLiteral l with
  | Some r => Some r
  | None =>
      match l with
      | 43%N :: r => StrUnsignedDecimalLiteral false r
      | 45%N :: r => StrUnsignedDecimalLiteral true r
      | _ => StrUnsignedDecimalLiteral false l
      end
  end.

(** [Number(s)] for a string [s] (StringToNumber): white space around
    the literal is dropped, the empty literal is [+0], and anything that
    is not a [StrNumericLiteral] is NaN. *)
Definition Number (s : string) : spec_float :=
  match skip_StrWhiteSpace (code_units s) with
  | [] => zero
  | l =>
      match StrNumericLiteral l with
      | Some (v, rest) =>
          match skip_StrWhiteSpace rest with
          | [] => v
          | _ :: _ => NaN
          end
      | None => NaN
      end
  end.

End JS.

(** ** UserProfileDesktop *)

Module UserProfileDesktop.

(** The collaborator methods the click handler can call. *)
Inductive Call :=
| profileMenu_onOpen
| signInWithWallet_start
| authModal_onOpen.

Section Handler.
(** The payload of the profile query; the handler only tests it for
    truthiness. *)
Variable UserInfo : Type.

(** [handleProfileButtonClick]: the closure captures
    [profileQuery.data] and [router.pathname]; the result lists the
    calls made before the handler returns. *)
Definition handleProfileButtonClick
    (profileQuery_data : option UserInfo) (router_pathname : string)
  : list Call :=
  if JS.Boolean_obj profileQuery_data then
    [profileMenu_onOpen]
  else if String.eqb router_pathname "/apps/[id]" then
    [signInWithWallet_start]
  else
    [authModal_onOpen].

(** The two [useDisclosure] toggles and the number of wallet flows
    started so far. *)
Record State := {
  profileMenu_isOpen : bool;
  authModal_isOpen : bool;
  signInWithWallet_starts : nat;
}.

Definition perform (c : Call) (st : State) : State :=
  match c with
  | profileMenu_onOpen =>
      {| profileMenu_isOpen := true;
         authModal_isOpen := authModal_isOpen st;
         signInWithWallet_starts := signInWithWallet_starts st |}
  | signInWithWallet_start =>
      {| profileMenu_isOpen := profileMenu_isOpen st;
         authModal_isOpen := authModal_isOpen st;
         signInWithWallet_starts := S (signInWithWallet_starts st) |}
  | authModal_onOpen =>
      {| profileMenu_isOpen := profileMenu_isOpen st;
         authModal_isOpen := true;
         signInWithWallet_starts := signInWithWallet_starts st |}
  end.

(** [useDisclosure().onClose] of the two toggles. *)
Definition profileMenu_onClose (st : State) : State :=
  {| profileMenu_isOpen := false;
     authModal_isOpen := authModal_isOpen st;
     signInWithWallet_starts := signInWithWallet_starts st |}.

Definition authModal_onClose (st : State) : State :=
  {| profileMenu_isOpen := profileMenu_isOpen st;
     authModal_isOpen := false;
     signInWithWallet_starts := signInWithWallet_starts st |}.

(** The state after the calls of the handler alone. *)
Definition run_handler (profileQuery_data : option UserInfo)
    (router_pathname : string) (st : State) : State :=
  fold_left (fun s c => perform c s)
    (handleProfileButtonClick profileQuery_data router_pathname) st.

(** The toggle that [PopoverTrigger] adds to the [onClick] of its child.
    The popover is controlled ([isOpen], [onClose]) and has no [onOpen]:
    when it was open at the last render the toggle calls its [onClose],
    which is [profileMenu.onClose], and otherwise it changes nothing. *)
Definition PopoverTrigger_onToggle (rendered_isOpen : bool) (st : State)
  : State :=
  if rendered_isOpen then profileMenu_onClose st else st.

(** One click on the trigger: the button is the child of
    [PopoverTrigger], so its [onClick] is the handler followed by the
    toggle of the popover, which reads [isOpen] as of the last render. *)
Definition click (profileQuery_data : option UserInfo)
    (router_pathname : string) (st : State) : State :=
  PopoverTrigger_onToggle (profileMenu_isOpen st)
    (run_handler profileQuery_data router_pathname st).
End Handler.

End UserProfileDesktop.

(** ** ColumnsButton *)

Module ColumnsButton.

(** A [Record<ColumnsIds, boolean>] is a plain object with string keys.
    Objects are passed by reference, so they live in a heap. *)
Definition loc := positive.
Abbreviation Columns := (gmap string bool).
Abbreviation heap := (gmap loc (gmap string bool)).

(** The part of [ChangeEvent<HTMLInputElement>] the handler reads. *)
Record ChangeEvent := {
  target_id : string;
  target_checked : bool;
}.

(** [{ ...src }]: a new object holding the own properties of [src]. *)
Definition spread (h : heap) (src : loc) : Columns :=
  default ∅ (h !! src).

Definition alloc (h : heap) (o : Columns) : loc * heap :=
  let l := fresh (dom h) in (l, <[l := o]> h).

(** [obj[k] = v] *)
Definition assign (l : loc) (k : string) (v : bool) (h : heap) : heap :=
  alter (fun o : Columns => <[k := v]> o) l h.

(** [onCheckboxClick]: the closure captures the reference [columns]; the
    result is the heap after the handler and the arguments of the calls
    to [onChange], in order. *)
Definition onCheckboxClick (columns : loc) (event : ChangeEvent) (h : heap)
  : heap * list loc :=
  let '(newCols, h1) := alloc h (spread h columns) in
  let id := target_id event in
  let h2 := assign newCols id (target_checked event) h1 in
  (h2, [newCols]).

(** The mounted picker.  Each checkbox is uncontrolled: [defaultChecked]
    sets the DOM state when the checkbox mounts and is ignored
    afterwards, so the DOM state is part of the component state. *)
Record Mounted := {
  props_columns : loc;
  checkboxes : gmap string bool;
}.

Section Picker.
(** [TABLE_COLUMNS] (ui/pages/AdvancedFilter): the ids of the table's
    columns, in display order. *)
Variable TABLE_COLUMNS : list string.

(** [defaultChecked={ columns[col.id] }]; a missing key reads as
    [undefined], which leaves the box unchecked. *)
Definition mount (h : heap) (columns : loc) : Mounted :=
  {| props_columns := columns;
     checkboxes :=
       list_to_map
         (map (fun id => (id, default false (spread h columns !! id)))
              TABLE_COLUMNS) |}.

(** The parent renders the picker again with another [columns] prop. *)
Definition rerender (columns : loc) (c : Mounted) : Mounted :=
  {| props_columns := columns; checkboxes := checkboxes c |}.

(** The user clicks the checkbox [k]: the DOM flips it and fires the
    change event.  [None] when no such checkbox is mounted. *)
Definition click (k : string) (c : Mounted) (h : heap)
  : option (Mounted * heap * list loc) :=
  match checkboxes c !! k with
  | None => None
  | Some b =>
      let ev := {| target_id := k; target_checked := negb b |} in
      let '(h', calls) := onCheckboxClick (props_columns c) ev h in
      Some ({| props_columns := props_columns c;
               checkboxes := <[k := negb b]> (checkboxes c) |},
            h', calls)
  end.
End Picker.

End ColumnsButton.

(** ** AddressDetails *)

Module AddressDetails.

(** [router.query.id] has type [string | string[] | undefined]. *)
Inductive QueryParam :=
| QUndefined
| QString (s : string)
| QArray (l : list string).

Definition Boolean_param (p : QueryParam) : bool :=
  match p with
  | QUndefined => false
  | QString s => JS.Boolean_str s
  | QArray _ => true
  end.

Definition ToString_param (p : QueryParam) : string :=
  match p with
  | QUndefined => "undefined"
  | QString s => s
  | QArray l => JS.join_comma l
  end.

(** [UseQueryResult<T>] is a union discriminated by [status]; [data] is
    defined on success and on an error that follows an earlier success. *)
Inductive UseQueryResult (T : Type) :=
| QueryLoading
| QueryLoadingError
| QueryRefetchError (data : T)
| QuerySuccess (data : T).
Arguments QueryLoading {T}.
Arguments QueryLoadingError {T}.
Arguments QueryRefetchError {T} data.
Arguments QuerySuccess {T} data.

Definition isLoading {T} (q : UseQueryResult T) : bool :=
  match q with
  | QueryLoading => true
  | _ => false
  end.

Definition isError {T} (q : UseQueryResult T) : bool :=
  match q with
  | QueryLoadingError | QueryRefetchError _ => true
  | _ => false
  end.

Definition data {T} (q : UseQueryResult T) : option T :=
  match q with
  | QueryRefetchError d | QuerySuccess d => Some d
  | _ => None
  end.

(** The fields of [Address] and [AddressCounters] (types/api/address)
    that the panel reads. *)
Record TAddress := { hash : string }.

Record AddressCounters := {
  transactions_count : string;
  token_transfers_count : string;
  gas_usage_count : string;
  validations_count : string;
}.

(** An entry of [appConfig.network.explorers]. *)
Record ExplorerPaths := {
  tx : option string;
  address : option string;
}.

Record NetworkExplorer := {
  title : string;
  baseUrl : string;
  paths : ExplorerPaths;
}.

(** The members of [QueryKeys] (types/client/queries) used here. *)
Inductive QueryKeys := addressCounters | addressTokenBalances.

(** A call of the function returned by [useFetch]: the path and the
    optional second argument. *)
Record FetchParams := {
  method : option string;
  body : option string;
}.

Record FetchCall := {
  fetch_path : string;
  fetch_params : option FetchParams;
}.

(** The arguments of one [useQuery] call; [queryFn] is given by the call
    it makes when it runs. *)
Record UseQueryArgs := {
  queryKey : QueryKeys * QueryParam;
  queryFn : FetchCall;
  enabled : bool;
}.

(** The view tree. *)
Inductive HashText :=
| HashFull (h : string)
| HashStringShorten (h : string).

Record Header := {
  AddressIcon_hash : string;
  header_text : HashText;
  CopyToClipboard_text : string;
}.

Record ExternalLink := {
  link_key : string;
  link_title : string;
  link_href : string;
}.

Section View.
(** An element of the token-balances payload. *)
Variable AddressTokenBalance : Type.

Inductive Child :=
| Text (s : string)
| TokenSelectMobile (d : list AddressTokenBalance)
| TokenSelectDesktop (d : list AddressTokenBalance)
| WalletButton.

Record DetailsInfoItem := {
  item_title : string;
  item_hint : string;
  item_children : list Child;
}.

Record Summary := {
  header : Header;
  explorers_section : option (list ExternalLink);
  grid : list DetailsInfoItem;
}.

Inductive View :=
| AddressDetailsSkeleton
| DataFetchAlert
| SummaryView (s : Summary).

(** What a render produces: an element, or the [TypeError] thrown by
    the [URL] constructor. *)
Inductive Rendered :=
| Element (v : View)
| Throws_TypeError.

(** The environment of the component. *)
Variable isMobile : bool.                       (* useIsMobile() *)
Variable router_query_id : QueryParam.          (* useRouter().query.id *)
Variable explorers_config : list NetworkExplorer.
                                      (* appConfig.network.explorers *)
(** [new URL(url, base).toString()]; [None] when the constructor
    throws. *)
Variable URL_toString : string -> string -> option string.
(** [Number.prototype.toLocaleString] in the locale of the browser. *)
Variable toLocaleString : spec_float -> string.
(** [BigNumber(s).toFormat()] *)
Variable BigNumber_toFormat : string -> string.

Definition countersQuery_args (addressQuery : UseQueryResult TAddress)
  : UseQueryArgs :=
  {| queryKey := (addressCounters, router_query_id);
     queryFn :=
       {| fetch_path :=
            "/node-api/addresses/" ++ ToString_param router_query_id
              ++ "/counters";
          fetch_params := None |};
     enabled :=
       Boolean_param router_query_id
       && JS.Boolean_obj (data addressQuery) |}.

Definition tokenBalancesQuery_args (addressQuery : UseQueryResult TAddress)
  : UseQueryArgs :=
  {| queryKey := (addressTokenBalances, router_query_id);
     queryFn :=
       {| fetch_path :=
            "/node-api/addresses/" ++ ToString_param router_query_id
              ++ "/token-balances";
          fetch_params := None |};
     enabled :=
       Boolean_param router_query_id
       && JS.Boolean_obj (data addressQuery) |}.

(** [appConfig.network.explorers.filter(({ paths }) => paths.address)] *)
Definition explorers : list NetworkExplorer :=
  List.filter (fun e => JS.Boolean_optstr (address (paths e)))
              explorers_config.

(** The callback of [explorers.map]. *)
Definition explorer_link (explorer : NetworkExplorer)
  : option ExternalLink :=
  match URL_toString
          (JS.ToString_optstr (tx (paths explorer)) ++ "/"
             ++ ToString_param router_query_id)
          (baseUrl explorer) with
  | Some url =>
      Some {| link_key := baseUrl explorer;
              link_title := title explorer;
              link_href := url |}
  | None => None
  end.

(** [explorers.map(...)]: the first throwing call aborts the render. *)
Fixpoint explorer_links (l : list NetworkExplorer)
  : option (list ExternalLink) :=
  match l with
  | [] => Some []
  | e :: rest =>
      match explorer_link e with
      | Some x =>
          match explorer_links rest with
          | Some xs => Some (x :: xs)
          | None => None
          end
      | None => None
      end
  end.

Definition tokens_item (balances : list AddressTokenBalance)
  : DetailsInfoItem :=
  {| item_title := "Tokens";
     item_hint := "All tokens in the account and total value.";
     item_children :=
       if (0 <? length balances)%nat then
         [ (if isMobile then TokenSelectMobile balances
            else TokenSelectDesktop balances);
           WalletButton ]
       else [ Text "-" ] |}.

(** [{ cond && <DetailsInfoItem .../> }] renders nothing when [cond] is
    false. *)
Definition blocks_validated_item (validationsCount : spec_float)
  : list DetailsInfoItem :=
  if negb (JS.Object_is_NaN validationsCount)
     && JS.gt validationsCount JS.zero
  then
    [ {| item_title := "Blocks validated";
         item_hint := "Number of blocks validated by this validator.";
         item_children := [ Text (toLocaleString validationsCount) ] |} ]
  else [].

(** The component body, given the results of its three queries.  Past
    both guards every query has succeeded, so each [data] is defined;
    the last branch is not reachable. *)
Definition AddressDetails
    (addressQuery : UseQueryResult TAddress)
    (countersQuery : UseQueryResult AddressCounters)
    (tokenBalancesQuery : UseQueryResult (list AddressTokenBalance))
  : Rendered :=
  if isLoading countersQuery || isLoading addressQuery
     || isLoading tokenBalancesQuery
  then Element AddressDetailsSkeleton
  else if isError countersQuery || isError addressQuery
          || isError tokenBalancesQuery
  then Element DataFetchAlert
  else
    match addressQuery, countersQuery, tokenBalancesQuery with
    | QuerySuccess addr, QuerySuccess counters, QuerySuccess balances =>
        let validationsCount := JS.Number (validations_count counters) in
        let section :=
          if (0 <? length explorers)%nat
          then option_map Some (explorer_links explorers)
          else Some None in
        match section with
        | None => Throws_TypeError
        | Some sec =>
            Element (SummaryView
              {| header :=
                   {| AddressIcon_hash := hash addr;
                      header_text :=
                        if isMobile then HashStringShorten (hash addr)
                        else HashFull (hash addr);
                      CopyToClipboard_text := hash addr |};
                 explorers_section := sec;
                 grid :=
                   [ tokens_item balances;
                     {| item_title := "Transactions";
                        item_hint :=
                          "Number of transactions related to this address.";
                        item_children :=
                          [ Text (toLocaleString
                              (JS.Number (transactions_count counters))) ] |};
                     {| item_title := "Transfers";
                        item_hint :=
                          "Number of transfers to/from this address.";
                        item_children :=
                          [ Text (toLocaleString
                              (JS.Number
                                 (token_transfers_count counters))) ] |};
                     {| item_title := "Gas used";
                        item_hint := "Gas used by the address.";
                        item_children :=
                          [ Text (BigNumber_toFormat
                                    (gas_usage_count counters)) ] |} ]
                   ++ blocks_validated_item validationsCount |})
        end
    | _, _, _ => Throws_TypeError
    end.

(** The grid item with a given title, if the view has one. *)
Definition find_item (t : string) (r : Rendered) : option DetailsInfoItem :=
  match r with
  | Element (SummaryView s) =>
      List.find (fun i => String.eqb (item_title i) t) (grid s)
  | _ => None
  end.
End View.

Arguments item_title {AddressTokenBalance} d.
Arguments item_hint {AddressTokenBalance} d.
Arguments item_children {AddressTokenBalance} d.
Arguments header {AddressTokenBalance} s.
Arguments explorers_section {AddressTokenBalance} s.
Arguments grid {AddressTokenBalance} s.
Arguments Text {AddressTokenBalance} s.
Arguments TokenSelectMobile {AddressTokenBalance} d.
Arguments TokenSelectDesktop {AddressTokenBalance} d.
Arguments WalletButton {AddressTokenBalance}.
Arguments AddressDetailsSkeleton {AddressTokenBalance}.
Arguments DataFetchAlert {AddressTokenBalance}.
Arguments SummaryView {AddressTokenBalance} s.
Arguments Element {AddressTokenBalance} v.
Arguments Throws_TypeError {AddressTokenBalance}.

(** The condition of the "Blocks validated" line as the specification
    words it: the count parses to a valid (not NaN) non-zero number. *)
Definition valid_nonzero (v : spec_float) : bool :=
  match v with
  | S754_nan | S754_zero _ => false
  | S754_infinity _ | S754_finite _ _ _ => true
  end.

(** The request paths as the specification words them. *)
Definition spec_counters_path (id : string) : string :=
  "/addresses/" ++ id ++ "/counters".
Definition spec_token_balances_path (id : string) : string :=
  "/addresses/" ++ id ++ "/token-balances".

End AddressDetails.

(** ** Sample environments, used to exercise the statements *)

Module Samples.
Import AddressDetails.

Definition columns_a_true : gmap string bool := {[ "a" := true ]}.
Definition heap_a_true : ColumnsButton.heap :=
  {[ 1%positive := columns_a_true ]}.

(** A resolver that joins an absolute base and an absolute path as they
    are, and rejects an empty base. *)
Definition URL_join (url base : string) : option string :=
  match base with
  | EmptyString => None
  | _ => Some (base ++ url)
  end.

(** The integer a Number stands for, when it stands for one. *)
Definition integer_value (v : spec_float) : option Z :=
  match v with
  | S754_zero _ => Some 0%Z
  | S754_finite s m e =>
      let sign (z : Z) := if s then (- z)%Z else z in
      if (0 <=? e)%Z then Some (sign (Z.pos m * 2 ^ e)%Z)
      else if (Z.pos m mod 2 ^ (- e) =? 0)%Z
           then Some (sign (Z.pos m / 2 ^ (- e))%Z)
           else None
  | _ => None
  end.

Fixpoint group3 (l : list ascii) : list ascii :=
  match l with
  | a :: b :: c :: ((_ :: _) as r) => a :: b :: c :: ","%char :: group3 r
  | _ => l
  end.

(** The en-US rendering of an integer: digits in groups of three. *)
Definition en_US_integer (z : Z) : string :=
  let ds :=
    list_ascii_of_string
      (DecimalString.NilZero.string_of_uint (N.to_uint (Z.abs_N z))) in
  (if (z <? 0)%Z then "-" else "")
    ++ string_of_list_ascii (rev (group3 (rev ds))).

(** A formatter for the samples: the en-US rendering on integer-valued
    Numbers; it is not meant for other values and gives the empty string
    there. *)
Definition toLocaleString_en_US (v : spec_float) : string :=
  match integer_value v with
  | Some z => en_US_integer z
  | None => ""
  end.

Definition BigNumber_toFormat_id (s : string) : string := s.

Definition two_explorers : list NetworkExplorer :=
  [ {| title := "Etherscan"; baseUrl := "https://etherscan.io";
       paths := {| tx := Some "/tx"; address := Some "/address" |} |};
    {| title := "Txs only"; baseUrl := "https://txs.example";
       paths := {| tx := Some "/tx"; address := None |} |} ].

Definition counters_with (validations : string) : AddressCounters :=
  {| transactions_count := "1234567";
     token_transfers_count := "42";
     gas_usage_count := "21000";
     validations_count := validations |}.

Definition sample_address : TAddress := {| hash := "0xabc" |}.

Definition sample_links : list ExternalLink :=
  [ {| link_key := "https://etherscan.io";
       link_title := "Etherscan";
       link_href := "https://etherscan.io/tx/0xabc" |} ].

(** The panel for address 0xabc on a desktop, tokens being strings. *)
Definition panel :=
  AddressDetails string false (QString "0xabc") two_explorers URL_join
    toLocaleString_en_US BigNumber_toFormat_id.
End Samples.

(** ** UserProfileDesktop: the rendered tree and the close handlers *)

Module UserProfileDesktopView.
Import UserProfileDesktop.

(** [initialScreen.type] of the auth modal. *)
Inductive ScreenType := select_method | email.

Section Render.
Variable UserInfo : Type.
(** [ButtonProps['size']] *)
Variable Size : Type.

Record Props := {
  buttonSize : option Size;
  buttonVariant : option string;
}.

(** The props handed to [UserProfileButton]. *)
Record UserProfileButton := {
  button_profileQuery_data : option UserInfo;
  button_size : option Size;
  button_variant : string;
  button_isPending : bool;
}.

Record View := {
  Popover_isOpen : bool;
  PopoverTrigger : UserProfileButton;
  (** [UserProfileContent data], rendered only with profile data *)
  PopoverContent : option UserInfo;
  (** [AuthModal initialScreen], rendered only while the dialog is open *)
  AuthModal : option ScreenType;
}.

(** The component body; [buttonVariant] defaults to 'header'. *)
Definition UserProfileDesktop (props : Props)
    (profileQuery_data : option UserInfo)
    (signInWithWallet_isPending : bool)
    (blockchainInteraction_isEnabled : bool) (st : State) : View :=
  {| Popover_isOpen := profileMenu_isOpen st;
     PopoverTrigger :=
       {| button_profileQuery_data := profileQuery_data;
          button_size := buttonSize props;
          button_variant :=
            match buttonVariant props with
            | Some v => v
            | None => "header"
            end;
          button_isPending := signInWithWallet_isPending |};
     PopoverContent :=
       match profileQuery_data with
       | Some d => Some d
       | None => None
       end;
     AuthModal :=
       if authModal_isOpen st then
         Some (if blockchainInteraction_isEnabled then select_method
               else email)
       else None |}.
End Render.

Arguments Popover_isOpen {UserInfo Size} v.
Arguments PopoverTrigger {UserInfo Size} v.
Arguments PopoverContent {UserInfo Size} v.
Arguments AuthModal {UserInfo Size} v.
Arguments button_variant {UserInfo Size} u.
Arguments button_isPending {UserInfo Size} u.
Arguments buttonSize {Size} p.
Arguments buttonVariant {Size} p.

End UserProfileDesktopView.

(** ** ColumnsButton: the rendered grid, and a caller that hands back the
    reported map *)

Module ColumnsButtonView.
Import ColumnsButton.




(** One click followed by a render of the picker with the reported map,
    as under a caller whose [onChange] stores the map it is given. *)
Definition click_then_rerender (k : string) (s : Mounted * heap)
  : option (Mounted * heap) :=
  match click k (fst s) (snd s) with
  | Some (c', h', [newCols]) => Some (rerender newCols c', h')
  | _ => None
  end.

Fixpoint clicks_then_rerenders (ks : list string) (s : Mounted * heap)
  : option (Mounted * heap) :=
  match ks with
  | [] => Some s
  | k :: rest =>
      match click_then_rerender k s with
      | Some s' => clicks_then_rerenders rest s'
      | None => None
      end
  end.

(** The picker is in step with the map [M]: it holds a reference to [M],
    and each checkbox of a table column shows the value [M] has for it. *)
Definition shows (cols : list string) (s : Mounted * heap)
    (M : gmap string bool) : Prop :=
  snd s !! props_columns (fst s) = Some M
  /\ forall k, In k cols ->
       checkboxes (fst s) !! k = Some (default false (M !! k)).

(** A map with the key [k] flipped, a missing key reading as false. *)
Definition toggled (M : gmap string bool) (k : string) : gmap string bool :=
  <[k := negb (default false (M !! k))]> M.

End ColumnsButtonView.

(** ** Further samples *)

Module MoreSamples.
Import AddressDetails Samples.

Definition closed : UserProfileDesktop.State :=
  {| UserProfileDesktop.profileMenu_isOpen := false;
     UserProfileDesktop.authModal_isOpen := false;
     UserProfileDesktop.signInWithWallet_starts := 0 |}.

Definition default_props : UserProfileDesktopView.Props string :=
  {| UserProfileDesktopView.buttonSize := None;
     UserProfileDesktopView.buttonVariant := None |}.


Definition columns_ab : gmap string bool :=
  <["a" := true]> {[ "b" := false ]}.

Definition heap_ab : ColumnsButton.heap := {[ 1%positive := columns_ab ]}.

Definition explorer_without_tx : NetworkExplorer :=
  {| title := "Scan"; baseUrl := "https://scan.example";
     paths := {| tx := None; address := Some "/address" |} |}.

Definition link_without_tx : ExternalLink :=
  {| link_key := "https://scan.example";
     link_title := "Scan";
     link_href := "https://scan.exampleundefined/0xabc" |}.

(** The summary of the sample panel for five validated blocks and no
    tokens. *)
Definition sample_summary : Summary string :=
  {| header :=
       {| AddressIcon_hash := "0xabc";
          header_text := HashFull "0xabc";
          CopyToClipboard_text := "0xabc" |};
     explorers_section := Some sample_links;
     grid :=
       [ {| item_title := "Tokens";
            item_hint := "All tokens in the account and total value.";
            item_children := [ Text "-" ] |};
         {| item_title := "Transactions";
            item_hint := "Number of transactions related to this address.";
            item_children := [ Text "1,234,567" ] |};
         {| item_title := "Transfers";
            item_hint := "Number of transfers to/from this address.";
            item_children := [ Text "42" ] |};
         {| item_title := "Gas used";
            item_hint := "Gas used by the address.";
            item_children := [ Text "21000" ] |};
         {| item_title := "Blocks validated";
            item_hint := "Number of blocks validated by this validator.";
            item_children := [ Text "5" ] |} ] |}.
End MoreSamples.

(** * Properties *)

(** ** UserProfileDesktop *)

Section UserProfileDesktop_props.
Import UserProfileDesktop.
Variable UserInfo : Type.

Lemma handler_cases (d : option UserInfo) (pathname : string) :
  handleProfileButtonClick UserInfo d pathname =
    match d with
    | Some _ => [profileMenu_onOpen]
    | None =>
        if String.eqb pathname "/apps/[id]"
        then [signInWithWallet_start] else [authModal_onOpen]
    end.
Proof. destruct d; reflexivity. Qed.

(** C2: whatever the profile data and the route, one click makes exactly
    one call, and it is one of the three: open the menu, start the wallet
    flow, open the auth dialog. *)
Theorem click_performs_exactly_one_effect
    (d : option UserInfo) (pathname : string) :
  exists c : Call,
    handleProfileButtonClick UserInfo d pathname = [c]
    /\ length (handleProfileButtonClick UserInfo d pathname) = 1%nat
    /\ (c = profileMenu_onOpen \/ c = signInWithWallet_start
        \/ c = authModal_onOpen).
Proof.
  rewrite handler_cases.
  destruct d as [u|]; [| destruct (String.eqb pathname "/apps/[id]")];
    eexists; (split; [reflexivity | split; [reflexivity | tauto]]).
Qed.

(** C3: with profile data present, the click handler calls
    [profileMenu.onOpen] and nothing else: it neither starts the wallet
    flow nor opens the auth dialog, on every route. *)
Theorem click_with_profile_opens_menu_only
    (u : UserInfo) (pathname : string) :
  handleProfileButtonClick UserInfo (Some u) pathname = [profileMenu_onOpen]
  /\ ~ In signInWithWallet_start
         (handleProfileButtonClick UserInfo (Some u) pathname)
  /\ ~ In authModal_onOpen
         (handleProfileButtonClick UserInfo (Some u) pathname).
Proof.
  repeat split; simpl; intros [H | []]; discriminate H.
Qed.

(** C4: without profile data, on the route '/apps/[id]', the click starts
    the wallet sign-in flow and does not open the auth dialog. *)
Theorem click_on_app_page_starts_wallet_flow :
  handleProfileButtonClick UserInfo None "/apps/[id]"
    = [signInWithWallet_start]
  /\ ~ In authModal_onOpen
         (handleProfileButtonClick UserInfo None "/apps/[id]").
Proof.
  repeat split; simpl; intros [H | []]; discriminate H.
Qed.
End UserProfileDesktop_props.

(** ** ColumnsButton *)

Section ColumnsButton_props.
Import ColumnsButton.

Lemma fresh_not_allocated (h : heap) : h !! fresh (dom h) = None.
Proof. apply not_elem_of_dom, is_fresh. Qed.

(** The handler in closed form: one allocation, one call. *)
Lemma onCheckboxClick_unfold (columns : loc) (ev : ChangeEvent) (h : heap) :
  onCheckboxClick columns ev h =
    (<[fresh (dom h) :=
         <[target_id ev := target_checked ev]> (spread h columns)]> h,
     [fresh (dom h)]).
Proof.
  unfold onCheckboxClick, alloc, assign.
  by rewrite alter_insert_eq.
Qed.

(** A checkbox mounts with the value its key has in the map. *)
Lemma mount_checkbox (cols : list string) (h : heap) (columns : loc)
    (M : gmap string bool) (k : string) (b : bool) :
  h !! columns = Some M -> M !! k = Some b -> In k cols ->
  checkboxes (mount cols h columns) !! k = Some b.
Proof.
  intros Hcols Hk Hin. unfold mount, spread. simpl. rewrite Hcols. simpl.
  apply elem_of_list_to_map_1'.
  - intros y Hy. apply list_elem_of_In, in_map_iff in Hy.
    destruct Hy as (k' & E & _). inversion E; subst. by rewrite Hk.
  - apply list_elem_of_In, in_map_iff. exists k. by rewrite Hk.
Qed.

(** The first click after mounting reports the map with the key negated;
    the same holds as long as the parent hands back each reported map. *)
Lemma first_click_negates (cols : list string) (h : heap) (columns : loc)
    (M : gmap string bool) (k : string) (b : bool) :
  h !! columns = Some M -> M !! k = Some b -> In k cols ->
  exists c' h' newCols,
    click k (mount cols h columns) h = Some (c', h', [newCols])
    /\ h' !! newCols = Some (<[k := negb b]> M)
    /\ h' !! columns = Some M
    /\ checkboxes c' !! k = Some (negb b).
Proof.
  intros Hcols Hk Hin. unfold click.
  rewrite (mount_checkbox cols h columns M k b Hcols Hk Hin).
  rewrite onCheckboxClick_unfold. simpl.
  do 3 eexists. split; [reflexivity |].
  unfold spread. rewrite Hcols. simpl.
  split; [by rewrite lookup_insert_eq |].
  split; [| by rewrite lookup_insert_eq].
  rewrite lookup_insert_ne; [done |].
  intros E. pose proof (fresh_not_allocated h) as Hf.
  rewrite E in Hf. congruence.
Qed.

(** Rendering again with another map leaves the boxes as they are. *)
Lemma rerender_keeps_checkboxes (columns : loc) (c : Mounted) :
  checkboxes (rerender columns c) = checkboxes c
  /\ props_columns (rerender columns c) = columns.
Proof. split; reflexivity. Qed.

(** C1, as the handler has it: a change event on a checkbox makes exactly
    one call to [onChange], synchronously, with a fresh object that
    equals the input map [M] except that the key of the checkbox holds
    the checked state reported by the event; that is [M] with the key
    negated whenever the reported state is the negation of [M]'s value (the
    checkbox showed [M]'s value before the click).  The input object and
    every other object are left as they were. *)
Theorem onCheckboxClick_reports_updated_copy
    (h : heap) (columns : loc) (M : gmap string bool) (ev : ChangeEvent)
    (Hcols : h !! columns = Some M) :
  exists (newCols : loc) (h' : heap),
    onCheckboxClick columns ev h = (h', [newCols])
    /\ newCols <> columns
    /\ h !! newCols = None
    /\ h' !! newCols = Some (<[target_id ev := target_checked ev]> M)
    /\ h' !! columns = Some M
    /\ (forall l, l <> newCols -> h' !! l = h !! l)
    /\ (forall b, M !! target_id ev = Some b ->
          target_checked ev = negb b ->
          h' !! newCols = Some (<[target_id ev := negb b]> M)
          /\ (forall k, k <> target_id ev ->
                <[target_id ev := negb b]> M !! k = M !! k)).
Proof.
  pose proof (fresh_not_allocated h) as Hfresh.
  exists (fresh (dom h)), (<[fresh (dom h) :=
    <[target_id ev := target_checked ev]> (spread h columns)]> h).
  assert (fresh (dom h) <> columns) as Hne by congruence.
  assert (spread h columns = M) as HM by (unfold spread; by rewrite Hcols).
  rewrite HM.
  split; [by rewrite onCheckboxClick_unfold, HM |].
  split; [exact Hne |].
  split; [exact Hfresh |].
  split; [apply lookup_insert_eq |].
  split; [by rewrite lookup_insert_ne |].
  split; [intros l Hl; by rewrite lookup_insert_ne |].
  intros b Hb Hc. rewrite lookup_insert_eq, Hc.
  split; [reflexivity |].
  intros k Hk. by rewrite lookup_insert_ne.
Qed.

Import Samples.

Lemma onCheckboxClick_reports_updated_copy_witness :
  exists (newCols : loc) (h' : heap),
    onCheckboxClick 1%positive
      {| target_id := "a"; target_checked := false |} heap_a_true
      = (h', [newCols])
    /\ newCols <> 1%positive
    /\ heap_a_true !! newCols = None
    /\ h' !! newCols = Some (<["a" := false]> columns_a_true)
    /\ h' !! 1%positive = Some columns_a_true
    /\ (forall l, l <> newCols -> h' !! l = heap_a_true !! l)
    /\ (forall b, columns_a_true !! "a" = Some b ->
          false = negb b ->
          h' !! newCols = Some (<["a" := negb b]> columns_a_true)
          /\ (forall k, k <> "a" ->
                <["a" := negb b]> columns_a_true !! k
                = columns_a_true !! k)).
Proof.
  apply (onCheckboxClick_reports_updated_copy heap_a_true 1%positive
           columns_a_true {| target_id := "a"; target_checked := false |}).
  reflexivity.
Defined.

(** C1 as stated fails: the picker is mounted on the map { a: false };
    the box is ticked, and the callback receives { a: true }; the parent
    keeps its map; the box is unticked, and the callback receives
    { a: false }, which is the input map itself and not the input map
    with [a] negated. *)
Lemma second_click_does_not_negate :
  let M : gmap string bool := {[ "a" := false ]} in
  let h0 : heap := {[ 1%positive := M ]} in
  exists c1 h1 arg1 c2 h2 arg2,
    click "a" (mount ["a"] h0 1%positive) h0 = Some (c1, h1, [arg1])
    /\ h1 !! arg1 = Some (<["a" := true]> M)
    /\ props_columns c1 = 1%positive
    /\ h1 !! 1%positive = Some M
    /\ click "a" c1 h1 = Some (c2, h2, [arg2])
    /\ h2 !! arg2 = Some M
    /\ M !! "a" = Some false
    /\ h2 !! arg2 <> Some (<["a" := negb false]> M).
Proof.
  vm_compute. do 6 eexists. repeat split; try reflexivity. discriminate.
Qed.
End ColumnsButton_props.

(** ** AddressDetails *)

Section AddressDetails_props.
Import AddressDetails.

Variable B : Type.
Variable isMobile : bool.
Variable id : QueryParam.
Variable config : list NetworkExplorer.
Variable URL_toString : string -> string -> option string.
Variable toLocaleString : spec_float -> string.
Variable BigNumber_toFormat : string -> string.

Local Abbreviation render :=
  (AddressDetails B isMobile id config URL_toString toLocaleString
     BigNumber_toFormat).
Local Abbreviation links_of := (explorer_links id URL_toString).
Local Abbreviation blocks_item := (blocks_validated_item B toLocaleString).

(** Past both guards: the summary, once the explorer links resolve. *)
Lemma render_success (addr : TAddress) (counters : AddressCounters)
    (balances : list B) (links : list ExternalLink) :
  links_of (explorers config) = Some links ->
  render (QuerySuccess addr) (QuerySuccess counters) (QuerySuccess balances)
  = Element (SummaryView
      {| header :=
           {| AddressIcon_hash := hash addr;
              header_text :=
                if isMobile then HashStringShorten (hash addr)
                else HashFull (hash addr);
              CopyToClipboard_text := hash addr |};
         explorers_section :=
           match explorers config with
           | [] => None
           | _ :: _ => Some links
           end;
         grid :=
           [ tokens_item B isMobile balances;
             {| item_title := "Transactions";
                item_hint :=
                  "Number of transactions related to this address.";
                item_children :=
                  [ Text (toLocaleString
                            (JS.Number (transactions_count counters))) ] |};
             {| item_title := "Transfers";
                item_hint := "Number of transfers to/from this address.";
                item_children :=
                  [ Text (toLocaleString
                            (JS.Number
                               (token_transfers_count counters))) ] |};
             {| item_title := "Gas used";
                item_hint := "Gas used by the address.";
                item_children :=
                  [ Text (BigNumber_toFormat
                            (gas_usage_count counters)) ] |} ]
           ++ blocks_item (JS.Number (validations_count counters)) |}).
Proof.
  intros Hlinks. unfold AddressDetails. simpl. rewrite Hlinks.
  destruct (explorers config); reflexivity.
Qed.

(** A summary is rendered only when all three queries have succeeded. *)
Lemma render_summary_inv (a : UseQueryResult TAddress)
    (c : UseQueryResult AddressCounters) (t : UseQueryResult (list B))
    (s : Summary B) :
  render a c t = Element (SummaryView s) ->
  exists addr counters balances,
    a = QuerySuccess addr /\ c = QuerySuccess counters
    /\ t = QuerySuccess balances.
Proof.
  destruct a, c, t; simpl; try discriminate; eauto 10.
Qed.

Lemma find_item_inv (title : string) (r : Rendered B) (i : DetailsInfoItem B) :
  find_item B title r = Some i ->
  exists s, r = Element (SummaryView s)
            /\ List.find (fun j => String.eqb (item_title j) title) (grid s)
               = Some i.
Proof.
  destruct r as [[| | s] |]; simpl; try discriminate; eauto.
Qed.

(** The guard of the "Blocks validated" line holds for the positive
    Numbers, +Infinity included, and for nothing else. *)
Lemma blocks_guard_positive (v : spec_float) :
  negb (JS.Object_is_NaN v) && JS.gt v JS.zero = true
  <-> (v = S754_infinity false
       \/ exists m e, v = S754_finite false m e).
Proof.
  destruct v as [s | s | | s m e]; try destruct s; simpl;
    unfold JS.gt, SFltb; simpl; split;
    try discriminate; try reflexivity; try tauto;
    try (intros [H | (m' & e' & H)]; discriminate H); eauto.
Qed.

(** The first guard. *)
Lemma render_loading (a : UseQueryResult TAddress)
    (c : UseQueryResult AddressCounters) (t : UseQueryResult (list B)) :
  isLoading a = true \/ isLoading c = true \/ isLoading t = true ->
  render a c t = Element AddressDetailsSkeleton.
Proof.
  intros Hloading. unfold AddressDetails.
  destruct Hloading as [H | [H | H]]; rewrite H;
    rewrite ?orb_true_r; reflexivity.
Qed.

(** C5: if one of the three queries is loading, the component returns the
    skeleton, and no summary field (no grid item of any title) is
    rendered. *)
Theorem loading_renders_skeleton (a : UseQueryResult TAddress)
    (c : UseQueryResult AddressCounters) (t : UseQueryResult (list B))
    (Hloading : isLoading a = true \/ isLoading c = true
                \/ isLoading t = true) :
  render a c t = Element AddressDetailsSkeleton
  /\ (forall s, render a c t <> Element (SummaryView s))
  /\ (forall title, find_item B title (render a c t) = None).
Proof.
  rewrite (render_loading a c t Hloading). repeat split; intros; discriminate || reflexivity.
Qed.

(** C6, as the component has it: if one of the three queries is in an
    error state, then the component renders the fetch-failure notice when
    no query is loading, the skeleton when one is, and in neither case
    the summary view. *)
Theorem error_renders_alert_unless_loading (a : UseQueryResult TAddress)
    (c : UseQueryResult AddressCounters) (t : UseQueryResult (list B))
    (Herror : isError a = true \/ isError c = true \/ isError t = true) :
  (isLoading a = false /\ isLoading c = false /\ isLoading t = false ->
     render a c t = Element DataFetchAlert)
  /\ (isLoading a = true \/ isLoading c = true \/ isLoading t = true ->
       render a c t = Element AddressDetailsSkeleton)
  /\ (forall s, render a c t <> Element (SummaryView s)).
Proof.
  split; [| split].
  - intros (Ha & Hc & Ht). unfold AddressDetails.
    rewrite Ha, Hc, Ht. simpl.
    destruct Herror as [H | [H | H]]; rewrite H;
      rewrite ?orb_true_r; reflexivity.
  - apply render_loading.
  - intros s Hs. apply render_summary_inv in Hs.
    destruct Hs as (addr & counters & balances & -> & -> & ->).
    simpl in Herror. intuition discriminate.
Qed.

(** The grid of a rendered summary is fixed by the query data. *)
Lemma render_summary_grid (addr : TAddress) (counters : AddressCounters)
    (balances : list B) (s : Summary B) :
  render (QuerySuccess addr) (QuerySuccess counters) (QuerySuccess balances)
    = Element (SummaryView s) ->
  grid s =
    ([ tokens_item B isMobile balances;
      {| item_title := "Transactions";
         item_hint := "Number of transactions related to this address.";
         item_children :=
           [ Text (toLocaleString
                     (JS.Number (transactions_count counters))) ] |};
      {| item_title := "Transfers";
         item_hint := "Number of transfers to/from this address.";
         item_children :=
           [ Text (toLocaleString
                     (JS.Number (token_transfers_count counters))) ] |};
      {| item_title := "Gas used";
         item_hint := "Gas used by the address.";
         item_children :=
           [ Text (BigNumber_toFormat (gas_usage_count counters)) ] |} ]
    ++ blocks_item (JS.Number (validations_count counters)))%list.
Proof.
  unfold AddressDetails. simpl.
  destruct (0 <? length (explorers config))%nat;
    [destruct (links_of (explorers config)) |];
    simpl; intros H; inversion H; reflexivity.
Qed.

Lemma find_tokens_in_grid (balances : list B) (rest : list (DetailsInfoItem B)) :
  List.find (fun j => String.eqb (item_title j) "Tokens")
            (tokens_item B isMobile balances :: rest)
  = Some (tokens_item B isMobile balances).
Proof. reflexivity. Qed.

Lemma find_blocks_in_grid (x : list B) (s1 s2 s3 : string)
    (v : spec_float) :
  List.find (fun j => String.eqb (item_title j) "Blocks validated")
    ([ tokens_item B isMobile x;
       {| item_title := "Transactions";
          item_hint := "Number of transactions related to this address.";
          item_children := [ Text s1 ] |};
       {| item_title := "Transfers";
          item_hint := "Number of transfers to/from this address.";
          item_children := [ Text s2 ] |};
       {| item_title := "Gas used";
          item_hint := "Gas used by the address.";
          item_children := [ Text s3 ] |} ] ++ blocks_item v)%list
  = if negb (JS.Object_is_NaN v) && JS.gt v JS.zero
    then Some {| item_title := "Blocks validated";
                 item_hint :=
                   "Number of blocks validated by this validator.";
                 item_children := [ Text (toLocaleString v) ] |}
    else None.
Proof.
  unfold blocks_validated_item. simpl.
  destruct (negb (JS.Object_is_NaN v) && JS.gt v JS.zero); reflexivity.
Qed.

(** C7, as the component has it: in the summary view the "Blocks
    validated" line is rendered exactly when [validations_count] parses
    to a Number greater than zero (a positive finite Number or
    +Infinity); the line then shows that Number through
    [toLocaleString].  Given "0" the line is omitted; given "5" the line
    shows the locale rendering of the Number 5. *)
Theorem blocks_validated_line_iff_positive
    (addr : TAddress) (counters : AddressCounters) (balances : list B)
    (links : list ExternalLink)
    (Hlinks : links_of (explorers config) = Some links) :
  let v := JS.Number (validations_count counters) in
  let r := render (QuerySuccess addr) (QuerySuccess counters)
                  (QuerySuccess balances) in
  (is_Some (find_item B "Blocks validated" r)
     <-> (v = S754_infinity false \/ exists m e, v = S754_finite false m e))
  /\ (forall i, find_item B "Blocks validated" r = Some i ->
        i = {| item_title := "Blocks validated";
               item_hint := "Number of blocks validated by this validator.";
               item_children := [ Text (toLocaleString v) ] |})
  /\ (validations_count counters = "0" ->
        find_item B "Blocks validated" r = None)
  /\ (validations_count counters = "5" ->
        JS.Number "5" = JS.of_Z 5
        /\ find_item B "Blocks validated" r =
             Some {| item_title := "Blocks validated";
                     item_hint :=
                       "Number of blocks validated by this validator.";
                     item_children :=
                       [ Text (toLocaleString (JS.of_Z 5)) ] |}).
Proof.
  intros v r.
  assert (find_item B "Blocks validated" r =
          if negb (JS.Object_is_NaN v) && JS.gt v JS.zero
          then Some {| item_title := "Blocks validated";
                       item_hint :=
                         "Number of blocks validated by this validator.";
                       item_children := [ Text (toLocaleString v) ] |}
          else None) as Hfind.
  { subst r. rewrite (render_success _ _ _ _ Hlinks).
    unfold find_item. cbv beta iota delta [grid].
    apply find_blocks_in_grid. }
  rewrite Hfind.
  split; [| split; [| split]].
  - rewrite <- blocks_guard_positive.
    destruct (negb (JS.Object_is_NaN v) && JS.gt v JS.zero); split;
      intros H; try reflexivity; try discriminate; eauto.
    destruct H as [x Hx]. discriminate Hx.
  - intros i.
    destruct (negb (JS.Object_is_NaN v) && JS.gt v JS.zero);
      intros H; inversion H; reflexivity.
  - intros H0. subst v. rewrite H0. reflexivity.
  - intros H5. subst v. rewrite H5. split; reflexivity.
Qed.

(** C8: in the summary view the Tokens cell holds the placeholder dash
    when the token-balances query succeeded with an empty list, and a
    token selector (followed by the wallet button) and no dash when the
    list is not empty. *)
Theorem tokens_cell_dash_or_selector
    (addr : TAddress) (counters : AddressCounters) (balances : list B)
    (links : list ExternalLink)
    (Hlinks : links_of (explorers config) = Some links) :
  let r := render (QuerySuccess addr) (QuerySuccess counters)
                  (QuerySuccess balances) in
  find_item B "Tokens" r =
    Some {| item_title := "Tokens";
            item_hint := "All tokens in the account and total value.";
            item_children :=
              match balances with
              | [] => [ Text "-" ]
              | _ :: _ =>
                  [ (if isMobile then TokenSelectMobile balances
                     else TokenSelectDesktop balances);
                    WalletButton ]
              end |}
  /\ (forall (a : UseQueryResult TAddress)
             (c : UseQueryResult AddressCounters) (i : DetailsInfoItem B),
        find_item B "Tokens" (render a c (QuerySuccess balances)) = Some i ->
        (balances = [] -> item_children i = [ Text "-" ])
        /\ (balances <> [] ->
              item_children i =
                [ (if isMobile then TokenSelectMobile balances
                   else TokenSelectDesktop balances);
                  WalletButton ]
              /\ ~ In (Text "-") (item_children i))).
Proof.
  intros r. split.
  - subst r. rewrite (render_success _ _ _ _ Hlinks).
    unfold find_item. cbv beta iota delta [grid app].
    rewrite find_tokens_in_grid. unfold tokens_item.
    destruct balances; reflexivity.
  - intros a c i Hi.
    apply find_item_inv in Hi. destruct Hi as (s & Hs & Hfind).
    destruct (render_summary_inv _ _ _ _ Hs)
      as (addr' & counters' & balances' & -> & -> & Hb).
    inversion Hb; subst balances'.
    rewrite (render_summary_grid _ _ _ _ Hs) in Hfind.
    simpl in Hfind. inversion Hfind; subst i.
    unfold tokens_item; simpl.
    split.
    + intros ->. reflexivity.
    + intros Hne. destruct balances as [| b bs]; [congruence |].
      simpl. split; [reflexivity |].
      intros [H | [H | []]]; destruct isMobile; discriminate H.
Qed.

(** C9, as the component has it: the counters and token-balances queries
    call the fetch hook with the path alone (no method or body, so the
    hook's default method) on `/node-api/addresses/{id}/counters` and
    `/node-api/addresses/{id}/token-balances`, are keyed by the route
    parameter, and are enabled exactly when the route parameter is
    present (defined and not the empty string) and the address query has
    data. *)
Theorem derived_queries_paths_keys_gates (a : UseQueryResult TAddress) :
  let cq := countersQuery_args id a in
  let tq := tokenBalancesQuery_args id a in
  fetch_path (queryFn cq)
    = "/node-api" ++ spec_counters_path (ToString_param id)
  /\ fetch_path (queryFn tq)
     = "/node-api" ++ spec_token_balances_path (ToString_param id)
  /\ fetch_params (queryFn cq) = None
  /\ fetch_params (queryFn tq) = None
  /\ queryKey cq = (addressCounters, id)
  /\ queryKey tq = (addressTokenBalances, id)
  /\ (enabled cq = true
      <-> (id <> QUndefined /\ id <> QString "")
          /\ exists d, data a = Some d)
  /\ enabled tq = enabled cq.
Proof.
  simpl. do 6 (split; [reflexivity |]). split; [| reflexivity].
  rewrite andb_true_iff. split.
  - intros [Hid Ha]. split.
    + split; intros E; rewrite E in Hid; discriminate Hid.
    + destruct (data a) as [d |]; [eauto | discriminate Ha].
  - intros [[H1 H2] [d Hd]]. rewrite Hd. split; [| reflexivity].
    destruct id as [| [| ch rest] |]; simpl; congruence.
Qed.

Lemma explorers_spec (e : NetworkExplorer) :
  In e (explorers config)
  <-> In e config /\ exists p, address (paths e) = Some p /\ p <> "".
Proof.
  unfold explorers. rewrite filter_In.
  split; intros [Hin H]; (split; [exact Hin |]).
  - destruct (address (paths e)) as [[| ch rest] |]; simpl in H;
      try discriminate; eexists; split; [reflexivity | discriminate].
  - destruct H as (p & -> & Hp). destruct p; [congruence | reflexivity].
Qed.

Lemma explorer_links_Forall2 (l : list NetworkExplorer)
    (links : list ExternalLink) :
  links_of l = Some links ->
  Forall2 (fun e k =>
             URL_toString
               (JS.ToString_optstr (tx (paths e)) ++ "/"
                  ++ ToString_param id) (baseUrl e)
             = Some (link_href k)
             /\ link_title k = title e /\ link_key k = baseUrl e)
          l links.
Proof.
  revert links. induction l as [| e l IH]; simpl; intros links H.
  - inversion H. constructor.
  - unfold explorer_link in H.
    destruct (URL_toString _ (baseUrl e)) as [url |] eqn:Hu;
      [| discriminate].
    destruct (links_of l) as [xs |] eqn:Hl; [| discriminate].
    inversion H; subst links. constructor; [| apply IH; reflexivity].
    simpl. auto.
Qed.

(** C10: the explorers shown are those of the configuration whose
    address path is defined (and not empty), and the section is left out
    when there is none; yet the href of every link shown is the URL made
    of the explorer's transaction path, '/', and the route id, resolved
    against the explorer's base URL: the address path by which the
    explorer was selected plays no part in the link. *)
Theorem explorer_links_filtered_by_address_built_from_tx
    (addr : TAddress) (counters : AddressCounters) (balances : list B)
    (links : list ExternalLink)
    (Hlinks : links_of (explorers config) = Some links) :
  (forall e, In e (explorers config)
             <-> In e config
                 /\ exists p, address (paths e) = Some p /\ p <> "")
  /\ (exists s,
        render (QuerySuccess addr) (QuerySuccess counters)
               (QuerySuccess balances) = Element (SummaryView s)
        /\ explorers_section s =
             match explorers config with
             | [] => None
             | _ :: _ => Some links
             end)
  /\ Forall2 (fun e k =>
                URL_toString
                  (JS.ToString_optstr (tx (paths e)) ++ "/"
                     ++ ToString_param id) (baseUrl e)
                = Some (link_href k)
                /\ link_title k = title e /\ link_key k = baseUrl e)
             (explorers config) links
  /\ (forall e p,
        explorer_link id URL_toString
          {| title := title e; baseUrl := baseUrl e;
             paths := {| tx := tx (paths e); address := p |} |}
        = explorer_link id URL_toString e).
Proof.
  split; [exact explorers_spec |].
  split; [eexists; split;
            [apply (render_success _ _ _ _ Hlinks) | reflexivity] |].
  split; [apply explorer_links_Forall2, Hlinks |].
  intros e p. reflexivity.
Qed.
End AddressDetails_props.

(** ** The statements on the sample panel *)

Section Samples_props.
Import AddressDetails Samples.

Lemma sample_links_resolve :
  explorer_links (QString "0xabc") URL_join (explorers two_explorers)
  = Some sample_links.
Proof. reflexivity. Qed.

Lemma loading_renders_skeleton_witness :
  (isLoading (QuerySuccess sample_address) = true
   \/ isLoading (@QueryLoading AddressCounters) = true
   \/ isLoading (QuerySuccess ["t"]) = true)
  /\ panel (QuerySuccess sample_address) QueryLoading (QuerySuccess ["t"])
     = Element AddressDetailsSkeleton.
Proof.
  assert (isLoading (QuerySuccess sample_address) = true
          \/ isLoading (@QueryLoading AddressCounters) = true
          \/ isLoading (QuerySuccess ["t"]) = true) as H
    by (right; left; reflexivity).
  split; [exact H |].
  exact (proj1 (loading_renders_skeleton string false (QString "0xabc")
                  two_explorers URL_join toLocaleString_en_US
                  BigNumber_toFormat_id _ _ _ H)).
Defined.

(** C6 as stated fails: the address query has failed, the two derived
    queries are still loading, and the component renders the skeleton,
    not the fetch-failure notice. *)
Lemma error_while_loading_renders_skeleton :
  isError (@QueryLoadingError TAddress) = true
  /\ panel QueryLoadingError QueryLoading QueryLoading
     = Element AddressDetailsSkeleton
  /\ panel QueryLoadingError QueryLoading QueryLoading
     <> Element DataFetchAlert.
Proof. repeat split. discriminate. Qed.

Lemma error_renders_alert_unless_loading_witness :
  (isError (QueryRefetchError sample_address) = true
   \/ isError (QuerySuccess (counters_with "5")) = true
   \/ isError (QuerySuccess (@nil string)) = true)
  /\ panel (QueryRefetchError sample_address)
           (QuerySuccess (counters_with "5")) (QuerySuccess [])
     = Element DataFetchAlert.
Proof.
  assert (isError (QueryRefetchError sample_address) = true
          \/ isError (QuerySuccess (counters_with "5")) = true
          \/ isError (QuerySuccess (@nil string)) = true) as H
    by (left; reflexivity).
  split; [exact H |].
  apply (proj1 (error_renders_alert_unless_loading string false
                  (QString "0xabc") two_explorers URL_join
                  toLocaleString_en_US BigNumber_toFormat_id _ _ _ H)).
  repeat split.
Defined.

(** C7 as stated fails: "-3" parses to the Number -3, which is valid and
    not zero, and the summary is rendered without the "Blocks validated"
    line. *)
Lemma negative_count_omits_line :
  JS.Number "-3" = JS.of_Z (-3)
  /\ valid_nonzero (JS.Number (validations_count (counters_with "-3")))
     = true
  /\ (exists s,
        panel (QuerySuccess sample_address)
              (QuerySuccess (counters_with "-3")) (QuerySuccess [])
        = Element (SummaryView s))
  /\ find_item string "Blocks validated"
       (panel (QuerySuccess sample_address)
              (QuerySuccess (counters_with "-3")) (QuerySuccess []))
     = None.
Proof.
  split; [reflexivity |]. split; [reflexivity |].
  split; [eexists; reflexivity | reflexivity].
Qed.

Lemma blocks_validated_line_iff_positive_witness :
  explorer_links (QString "0xabc") URL_join (explorers two_explorers)
    = Some sample_links
  /\ find_item string "Blocks validated"
       (panel (QuerySuccess sample_address)
              (QuerySuccess (counters_with "5")) (QuerySuccess []))
     = Some {| item_title := "Blocks validated";
               item_hint := "Number of blocks validated by this validator.";
               item_children := [ Text "5" ] |}.
Proof.
  split; [reflexivity |].
  destruct (blocks_validated_line_iff_positive string false
              (QString "0xabc") two_explorers URL_join
              toLocaleString_en_US BigNumber_toFormat_id sample_address
              (counters_with "5") [] sample_links eq_refl)
    as (_ & _ & _ & H5).
  destruct (H5 eq_refl) as [_ Hfind]. exact Hfind.
Defined.

Lemma tokens_cell_dash_or_selector_witness :
  explorer_links (QString "0xabc") URL_join (explorers two_explorers)
    = Some sample_links
  /\ find_item string "Tokens"
       (panel (QuerySuccess sample_address)
              (QuerySuccess (counters_with "5")) (QuerySuccess []))
     = Some {| item_title := "Tokens";
               item_hint := "All tokens in the account and total value.";
               item_children := [ Text "-" ] |}.
Proof.
  split; [reflexivity |].
  exact (proj1 (tokens_cell_dash_or_selector string false
                  (QString "0xabc") two_explorers URL_join
                  toLocaleString_en_US BigNumber_toFormat_id sample_address
                  (counters_with "5") [] sample_links eq_refl)).
Defined.

(** C9 as stated fails: for the address 0xabc the requests go to
    /node-api/addresses/0xabc/counters and
    /node-api/addresses/0xabc/token-balances, not to
    /addresses/0xabc/counters and /addresses/0xabc/token-balances. *)
Lemma request_paths_have_node_api_prefix :
  let a := QuerySuccess sample_address in
  fetch_path (queryFn (countersQuery_args (QString "0xabc") a))
    = "/node-api/addresses/0xabc/counters"
  /\ fetch_path (queryFn (countersQuery_args (QString "0xabc") a))
     <> spec_counters_path "0xabc"
  /\ fetch_path (queryFn (tokenBalancesQuery_args (QString "0xabc") a))
     = "/node-api/addresses/0xabc/token-balances"
  /\ fetch_path (queryFn (tokenBalancesQuery_args (QString "0xabc") a))
     <> spec_token_balances_path "0xabc".
Proof. repeat split; discriminate. Qed.

Lemma derived_queries_paths_keys_gates_witness :
  fetch_path
    (queryFn (countersQuery_args (QString "0xabc")
                (QuerySuccess sample_address)))
    = "/node-api/addresses/0xabc/counters"
  /\ enabled (countersQuery_args (QString "0xabc")
                (QuerySuccess sample_address)) = true.
Proof.
  destruct (derived_queries_paths_keys_gates (QString "0xabc")
              (QuerySuccess sample_address))
    as (Hpath & _ & _ & _ & _ & _ & Hgate & _).
  split; [exact Hpath |].
  apply Hgate. split; [split; discriminate | eexists; reflexivity].
Defined.

Lemma explorer_links_filtered_by_address_built_from_tx_witness :
  explorer_links (QString "0xabc") URL_join (explorers two_explorers)
    = Some sample_links
  /\ exists s,
       panel (QuerySuccess sample_address)
             (QuerySuccess (counters_with "5")) (QuerySuccess [])
       = Element (SummaryView s)
       /\ explorers_section s = Some sample_links.
Proof.
  split; [reflexivity |].
  exact (proj1 (proj2 (explorer_links_filtered_by_address_built_from_tx
                         string false (QString "0xabc") two_explorers
                         URL_join toLocaleString_en_US
                         BigNumber_toFormat_id sample_address
                         (counters_with "5") [] sample_links eq_refl))).
Defined.
End Samples_props.

(** * Further properties *)

(** ** UserProfileDesktop *)

Section UserProfileDesktop_more.
Import UserProfileDesktop UserProfileDesktopView.
Variable UserInfo : Type.
Variable Size : Type.

Local Abbreviation view := (UserProfileDesktopView.UserProfileDesktop UserInfo Size).

(** X1: which call a click makes is decided by the presence of profile data
    and by an exact match of the pathname: the menu opens exactly with
    data, the wallet flow starts exactly without data on the pathname
    '/apps/[id]', and the auth dialog opens exactly without data on every
    other pathname. *)
Theorem click_call_characterised (d : option UserInfo) (pathname : string) :
  (In profileMenu_onOpen (handleProfileButtonClick UserInfo d pathname)
     <-> exists u, d = Some u)
  /\ (In signInWithWallet_start
         (handleProfileButtonClick UserInfo d pathname)
      <-> d = None /\ pathname = "/apps/[id]")
  /\ (In authModal_onOpen (handleProfileButtonClick UserInfo d pathname)
      <-> d = None /\ pathname <> "/apps/[id]").
Proof.
  rewrite handler_cases.
  destruct d as [u |];
    [| destruct (String.eqb_spec pathname "/apps/[id]") as [E | NE]];
    simpl; (split; [| split]); split;
    try (intros [H | []]; discriminate H);
    try (intros [u' H]; discriminate H);
    try (intros [H _]; discriminate H);
    try (intros [_ H]; contradiction);
    intros; eauto.
Qed.

(** A click in closed form: the calls of the handler, then the toggle. *)
Lemma click_cases (d : option UserInfo) (pathname : string) (st : State) :
  click UserInfo d pathname st =
    match d with
    | Some _ =>
        {| profileMenu_isOpen := negb (profileMenu_isOpen st);
           authModal_isOpen := authModal_isOpen st;
           signInWithWallet_starts := signInWithWallet_starts st |}
    | None =>
        if String.eqb pathname "/apps/[id]" then
          {| profileMenu_isOpen := false;
             authModal_isOpen := authModal_isOpen st;
             signInWithWallet_starts := S (signInWithWallet_starts st) |}
        else
          {| profileMenu_isOpen := false;
             authModal_isOpen := true;
             signInWithWallet_starts := signInWithWallet_starts st |}
    end.
Proof.
  unfold click, run_handler, PopoverTrigger_onToggle.
  rewrite handler_cases.
  destruct d as [u |]; [| destruct (String.eqb pathname "/apps/[id]")];
    destruct st as [[] a n]; reflexivity.
Qed.

(** X2: the handler does not look at the pending state of the wallet flow:
    without profile data on '/apps/[id]', n clicks start the flow n times.
    They leave the auth dialog as it was, and the menu closed from the
    first click on: the toggle of the trigger closes a menu found open. *)
Theorem repeated_clicks_restart_wallet_flow (n : nat) (st : State) :
  Nat.iter n (click UserInfo None "/apps/[id]") st
  = {| profileMenu_isOpen :=
         match n with
         | O => profileMenu_isOpen st
         | S _ => false
         end;
       authModal_isOpen := authModal_isOpen st;
       signInWithWallet_starts := n + signInWithWallet_starts st |}.
Proof.
  induction n as [| n IH]; simpl.
  - destruct st; reflexivity.
  - rewrite IH, click_cases. reflexivity.
Qed.

(** X3: a click never closes the auth dialog and never lowers the number
    of wallet flows started.  On the menu it acts as a toggle when profile
    data is present: the handler opens it and the toggle of the trigger
    closes it again if it was open, so the menu ends up negated and a
    second click brings back the state before the first.  Without profile
    data the menu is closed after the click. *)
Theorem click_toggles_menu_keeps_dialog (d : option UserInfo)
    (pathname : string) (st : State) :
  let st1 := click UserInfo d pathname st in
  (authModal_isOpen st = true -> authModal_isOpen st1 = true)
  /\ signInWithWallet_starts st <= signInWithWallet_starts st1
  /\ (forall u, d = Some u ->
        profileMenu_isOpen st1 = negb (profileMenu_isOpen st)
        /\ click UserInfo d pathname st1 = st)
  /\ (d = None -> profileMenu_isOpen st1 = false).
Proof.
  simpl. rewrite !click_cases.
  destruct d as [u |]; [| destruct (String.eqb pathname "/apps/[id]")];
    simpl; (split; [| split; [| split]]); auto; try discriminate.
  intros u' _. split; [reflexivity |].
  destruct st as [[] a n]; reflexivity.
Qed.

(** X4: without profile data and off the pathname '/apps/[id]', a click
    makes the component render the auth dialog, on the 'select_method'
    screen when blockchain interaction is enabled and on the 'email' screen
    otherwise, with the popover closed; the dialog's onClose removes it
    again, and brings back the state before the click when dialog and menu
    were closed then.  The menu content is not rendered at any point,
    whatever the toggles. *)
Theorem click_opens_auth_dialog_until_closed
    (props : Props Size) (pathname : string) (isPending enabled : bool)
    (st : State) (Hroute : pathname <> "/apps/[id]") :
  let st1 := click UserInfo None pathname st in
  AuthModal (view props None isPending enabled st1)
    = Some (if enabled then select_method else email)
  /\ Popover_isOpen (view props None isPending enabled st1) = false
  /\ AuthModal (view props None isPending enabled (authModal_onClose st1))
     = None
  /\ (authModal_isOpen st = false -> profileMenu_isOpen st = false ->
      authModal_onClose st1 = st)
  /\ PopoverContent (view props None isPending enabled st) = None
  /\ PopoverContent (view props None isPending enabled st1) = None.
Proof.
  simpl. rewrite click_cases.
  apply String.eqb_neq in Hroute. rewrite Hroute. simpl.
  do 3 (split; [reflexivity |]). split; [| split; reflexivity].
  intros Ha Hm. destruct st; simpl in *; subst; reflexivity.
Qed.

(** X5: with profile data and the menu closed, a click makes the component
    render an open popover holding the profile content for that data, and
    leaves the auth dialog as it was; the menu's onClose closes the
    popover again, and so does a second click on the trigger, both
    bringing back the state before the click. *)
Theorem click_opens_profile_menu_until_closed
    (props : Props Size) (u : UserInfo) (pathname : string)
    (isPending enabled : bool) (st : State)
    (Hclosed : profileMenu_isOpen st = false) :
  let st1 := click UserInfo (Some u) pathname st in
  Popover_isOpen (view props (Some u) isPending enabled st1) = true
  /\ PopoverContent (view props (Some u) isPending enabled st1) = Some u
  /\ AuthModal (view props (Some u) isPending enabled st1)
     = AuthModal (view props (Some u) isPending enabled st)
  /\ Popover_isOpen
       (view props (Some u) isPending enabled (profileMenu_onClose st1))
     = false
  /\ profileMenu_onClose st1 = st
  /\ Popover_isOpen
       (view props (Some u) isPending enabled
          (click UserInfo (Some u) pathname st1))
     = false
  /\ click UserInfo (Some u) pathname st1 = st.
Proof.
  simpl. rewrite !click_cases. simpl. rewrite Hclosed. simpl.
  do 4 (split; [reflexivity |]).
  destruct st; simpl in *; subst. repeat split.
Qed.
End UserProfileDesktop_more.

(** ** ColumnsButton *)

Section ColumnsButton_more.
Import ColumnsButton ColumnsButtonView.


(** The checkbox of a table column mounts with the value the map has for
    it, a missing key leaving it unchecked. *)
Lemma mount_checkbox_default (cols : list string) (h : heap) (columns : loc)
    (M : gmap string bool) (k : string) :
  h !! columns = Some M -> In k cols ->
  checkboxes (mount cols h columns) !! k = Some (default false (M !! k)).
Proof.
  intros Hcols Hin. unfold mount, spread. simpl. rewrite Hcols. simpl.
  apply elem_of_list_to_map_1'.
  - intros y Hy. apply list_elem_of_In, in_map_iff in Hy.
    destruct Hy as (k' & E & _). by inversion E.
  - apply list_elem_of_In, in_map_iff. by exists k.
Qed.

Lemma click_then_rerender_shows (cols : list string) (s : Mounted * heap)
    (M : gmap string bool) (k : string) :
  shows cols s M -> In k cols ->
  exists s', click_then_rerender k s = Some s'
             /\ shows cols s' (toggled M k)
             /\ (forall l, is_Some (snd s !! l) -> snd s' !! l = snd s !! l).
Proof.
  intros [Hmap Hboxes] Hin. destruct s as [c h]. simpl in *.
  unfold click_then_rerender, click. cbn [fst snd].
  rewrite (Hboxes k Hin), onCheckboxClick_unfold. simpl.
  eexists. split; [reflexivity |].
  assert (spread h (props_columns c) = M) as ->
    by (unfold spread; by rewrite Hmap).
  split; [split |]; simpl.
  - by rewrite lookup_insert_eq.
  - intros k' Hk'. unfold toggled.
    destruct (decide (k = k')) as [<- | Hne].
    + by rewrite !lookup_insert_eq.
    + rewrite !lookup_insert_ne by done. by apply Hboxes.
  - intros l [o Hl]. rewrite lookup_insert_ne; [done |].
    intros E. pose proof (fresh_not_allocated h) as Hf.
    rewrite E in Hf. congruence.
Qed.

Lemma clicks_then_rerenders_shows (cols : list string) (ks : list string) :
  forall (s : Mounted * heap) (M : gmap string bool),
    shows cols s M -> Forall (fun k => In k cols) ks ->
    exists s', clicks_then_rerenders ks s = Some s'
               /\ shows cols s' (fold_left toggled ks M)
               /\ (forall l, is_Some (snd s !! l) -> snd s' !! l = snd s !! l).
Proof.
  induction ks as [| k ks IH]; intros s M Hs Hks; simpl.
  - eauto.
  - inversion Hks as [| ? ? Hk Hrest]; subst.
    destruct (click_then_rerender_shows cols s M k Hs Hk)
      as (s1 & -> & Hs1 & Hkeep1).
    destruct (IH s1 (toggled M k) Hs1 Hrest) as (s2 & -> & Hs2 & Hkeep2).
    eexists. split; [reflexivity |]. split; [exact Hs2 |].
    intros l Hl. rewrite Hkeep2; [by apply Hkeep1 |].
    by rewrite Hkeep1.
Qed.

(** Flipping keys one after the other leaves each key flipped as often as
    it occurs. *)
Lemma fold_toggled_parity (ks : list string) :
  forall (M : gmap string bool) (k : string),
    default false (fold_left toggled ks M !! k)
    = xorb (default false (M !! k)) (Nat.odd (count_occ string_dec ks k))
    /\ (count_occ string_dec ks k = 0 -> fold_left toggled ks M !! k = M !! k).
Proof.
  induction ks as [| a ks IH]; intros M k; simpl.
  - split; [by rewrite xorb_false_r | done].
  - destruct (IH (toggled M a) k) as [IH1 IH2].
    destruct (string_dec a k) as [-> | Hne].
    + split; [| discriminate].
      rewrite IH1. unfold toggled. rewrite lookup_insert_eq. simpl.
      rewrite Nat.odd_succ, <- Nat.negb_odd.
      destruct (default false (M !! k)),
               (Nat.odd (count_occ string_dec ks k)); reflexivity.
    + unfold toggled in *. rewrite lookup_insert_ne in IH1 by done.
      split; [exact IH1 |].
      intros H0. rewrite (IH2 H0). by rewrite lookup_insert_ne.
Qed.

(** X7: when the caller hands back each reported map, the picker and the
    map stay in step.  Starting from the picker mounted on a map [M],
    after any sequence of clicks on checkboxes of table columns the map
    the picker holds has each key flipped once per click on it: a key
    clicked an odd number of times is negated, a key clicked an even
    number of times reads as before, a key never clicked is untouched.
    The object of the first map still holds [M]. *)
Theorem clicks_flip_by_parity (cols : list string) (h : heap) (columns : loc)
    (M : gmap string bool) (ks : list string)
    (Hcols : h !! columns = Some M)
    (Hks : Forall (fun k => In k cols) ks) :
  exists (c' : Mounted) (h' : heap) (M' : gmap string bool),
    clicks_then_rerenders ks (mount cols h columns, h) = Some (c', h')
    /\ h' !! props_columns c' = Some M'
    /\ h' !! columns = Some M
    /\ (forall k, default false (M' !! k)
                  = xorb (default false (M !! k))
                         (Nat.odd (count_occ string_dec ks k)))
    /\ (forall k, ~ In k ks -> M' !! k = M !! k)
    /\ (forall k, In k cols ->
          checkboxes c' !! k = Some (default false (M' !! k))).
Proof.
  assert (shows cols (mount cols h columns, h) M) as Hshows.
  { split; [exact Hcols |]. intros k Hk.
    by apply mount_checkbox_default. }
  destruct (clicks_then_rerenders_shows cols ks _ M Hshows Hks)
    as ([c' h'] & Hrun & [Hmap Hboxes] & Hkeep).
  exists c', h', (fold_left toggled ks M). simpl in *.
  split; [exact Hrun |]. split; [exact Hmap |].
  split; [rewrite Hkeep; [exact Hcols | by rewrite Hcols] |].
  split; [intros k; apply fold_toggled_parity |].
  split; [| exact Hboxes].
  intros k Hk. apply fold_toggled_parity.
  by apply count_occ_not_In.
Qed.

(** A click in closed form. *)
Lemma click_unfold (k : string) (c : Mounted) (h : heap) (b : bool) :
  checkboxes c !! k = Some b ->
  click k c h =
    Some ({| props_columns := props_columns c;
             checkboxes := <[k := negb b]> (checkboxes c) |},
          <[fresh (dom h) :=
              <[k := negb b]> (spread h (props_columns c))]> h,
          [fresh (dom h)]).
Proof.
  intros Hb. unfold click. rewrite Hb, onCheckboxClick_unfold. reflexivity.
Qed.

(** X8: the handler works on the map captured at the last render.  Two
    clicks on different checkboxes with no render in between both start
    from that map, so the second reported map does not carry the change of
    the first; with a render on the first reported map in between, the
    second reported map carries both changes. *)
Theorem second_click_without_render_drops_first_change
    (cols : list string) (h : heap) (columns : loc)
    (M : gmap string bool) (k1 k2 : string) (b1 b2 : bool)
    (Hcols : h !! columns = Some M)
    (H1 : M !! k1 = Some b1) (H2 : M !! k2 = Some b2)
    (Hin1 : In k1 cols) (Hin2 : In k2 cols) (Hne : k1 <> k2) :
  exists c1 h1 n1,
    click k1 (mount cols h columns) h = Some (c1, h1, [n1])
    /\ h1 !! n1 = Some (<[k1 := negb b1]> M)
    /\ (exists c2 h2 n2,
          click k2 c1 h1 = Some (c2, h2, [n2])
          /\ h2 !! n2 = Some (<[k2 := negb b2]> M)
          /\ <[k2 := negb b2]> M !! k1 = Some b1)
    /\ (exists c2 h2 n2,
          click k2 (rerender n1 c1) h1 = Some (c2, h2, [n2])
          /\ h2 !! n2 = Some (<[k2 := negb b2]> (<[k1 := negb b1]> M))
          /\ <[k2 := negb b2]> (<[k1 := negb b1]> M) !! k1
             = Some (negb b1)).
Proof.
  pose proof (fresh_not_allocated h) as Hf.
  assert (fresh (dom h) <> columns) as Hfc by congruence.
  pose proof (mount_checkbox cols h columns M k1 b1 Hcols H1 Hin1) as Hbox1.
  pose proof (mount_checkbox cols h columns M k2 b2 Hcols H2 Hin2) as Hbox2.
  assert (spread h columns = M) as HM by (unfold spread; by rewrite Hcols).
  rewrite (click_unfold k1 _ h b1 Hbox1).
  change (props_columns (mount cols h columns)) with columns. rewrite HM.
  set (h1 := <[fresh (dom h) := <[k1 := negb b1]> M]> h).
  set (c1 := {| props_columns := columns;
                checkboxes :=
                  <[k1 := negb b1]>
                    (checkboxes (mount cols h columns)) |}).
  assert (checkboxes c1 !! k2 = Some b2) as Hc1
    by (simpl; by rewrite lookup_insert_ne).
  exists c1, h1, (fresh (dom h)).
  split; [reflexivity |].
  split; [apply lookup_insert_eq |].
  split.
  - do 3 eexists. split; [apply (click_unfold k2 c1 h1 b2 Hc1) |].
    assert (spread h1 (props_columns c1) = M) as ->.
    { unfold spread, h1. simpl. rewrite lookup_insert_ne by done.
      by rewrite Hcols. }
    split; [apply lookup_insert_eq |].
    by rewrite lookup_insert_ne.
  - do 3 eexists.
    split; [match goal with
            | |- click _ ?c _ = _ => apply (click_unfold k2 c h1 b2 Hc1)
            end |].
    assert (spread h1 (props_columns (rerender (fresh (dom h)) c1))
            = <[k1 := negb b1]> M) as ->.
    { unfold spread, h1. simpl. by rewrite lookup_insert_eq. }
    split; [apply lookup_insert_eq |].
    rewrite lookup_insert_ne by done. apply lookup_insert_eq.
Qed.

End ColumnsButton_more.

(** ** AddressDetails *)

Section AddressDetails_more.
Import AddressDetails.

Variable B : Type.
Variable id : QueryParam.
Variable config : list NetworkExplorer.
Variable URL_toString : string -> string -> option string.
Variable toLocaleString : spec_float -> string.
Variable BigNumber_toFormat : string -> string.

Local Abbreviation render_on mobile :=
  (AddressDetails B mobile id config URL_toString toLocaleString
     BigNumber_toFormat).
Local Abbreviation links_of := (explorer_links id URL_toString).
Local Abbreviation url_of e :=
  (URL_toString
     (JS.ToString_optstr (tx (paths e)) ++ "/" ++ ToString_param id)
     (baseUrl e)).

(** Past both guards the render gives the summary or throws, as the
    explorer links resolve or not. *)
Lemma render_success_cases (mobile : bool) (addr : TAddress)
    (counters : AddressCounters) (balances : list B) :
  (links_of (explorers config) = None
   /\ render_on mobile (QuerySuccess addr) (QuerySuccess counters)
        (QuerySuccess balances) = Throws_TypeError)
  \/ (exists links s,
        links_of (explorers config) = Some links
        /\ render_on mobile (QuerySuccess addr) (QuerySuccess counters)
             (QuerySuccess balances) = Element (SummaryView s)
        /\ explorers_section s =
             match explorers config with
             | [] => None
             | _ :: _ => Some links
             end).
Proof.
  destruct (links_of (explorers config)) as [links |] eqn:Hl.
  - right. exists links. eexists. split; [reflexivity |].
    split; [apply render_success, Hl | reflexivity].
  - left. split; [reflexivity |].
    unfold AddressDetails. simpl. rewrite Hl.
    destruct (explorers config) as [| e l]; [discriminate Hl | reflexivity].
Qed.

Lemma explorer_links_None (l : list NetworkExplorer) :
  links_of l = None <-> exists e, In e l /\ url_of e = None.
Proof.
  induction l as [| e l IH]; simpl.
  - split; [discriminate | intros (e & [] & _)].
  - unfold explorer_link.
    destruct (url_of e) as [url |] eqn:Hu.
    + destruct (links_of l) as [xs |] eqn:Hl.
      * split; [discriminate |].
        intros (e' & [<- | Hin] & He'); [congruence |].
        assert (Some xs = None) as H by (apply IH; eauto).
        discriminate H.
      * split; [| reflexivity]. intros _.
        destruct (proj1 IH eq_refl) as (e' & Hin & He'). eauto.
    + split; [| reflexivity]. intros _. eauto.
Qed.

(** The order of the guards. *)
Lemma render_cases (mobile : bool)
    (a : UseQueryResult TAddress) (c : UseQueryResult AddressCounters)
    (t : UseQueryResult (list B)) :
  (isLoading c || isLoading a || isLoading t = true
   /\ render_on mobile a c t = Element AddressDetailsSkeleton)
  \/ (isLoading c || isLoading a || isLoading t = false
      /\ isError c || isError a || isError t = true
      /\ render_on mobile a c t = Element DataFetchAlert)
  \/ (isLoading c || isLoading a || isLoading t = false
      /\ isError c || isError a || isError t = false
      /\ exists addr counters balances,
           a = QuerySuccess addr /\ c = QuerySuccess counters
           /\ t = QuerySuccess balances).
Proof.
  unfold AddressDetails.
  destruct (isLoading c || isLoading a || isLoading t) eqn:HL;
    [left; auto |].
  destruct (isError c || isError a || isError t) eqn:HE;
    [right; left; auto |].
  right; right. do 2 (split; [reflexivity |]).
  destruct c; try discriminate HL; try discriminate HE;
    destruct a; try discriminate HL; try discriminate HE;
    destruct t; try discriminate HL; try discriminate HE.
  eauto 10.
Qed.

(** X10: what the component returns is decided by the states of the three
    queries, in this order: the skeleton exactly when one of them is
    loading; the fetch-failure notice exactly when none is loading and one
    is in error; and otherwise, exactly when all three have succeeded, the
    summary view or a TypeError from the URL constructor. *)
Theorem render_outcome_by_query_states (mobile : bool)
    (a : UseQueryResult TAddress) (c : UseQueryResult AddressCounters)
    (t : UseQueryResult (list B)) :
  (render_on mobile a c t = Element AddressDetailsSkeleton
     <-> isLoading c || isLoading a || isLoading t = true)
  /\ (render_on mobile a c t = Element DataFetchAlert
      <-> isLoading c || isLoading a || isLoading t = false
          /\ isError c || isError a || isError t = true)
  /\ ((render_on mobile a c t = Throws_TypeError
       \/ exists s, render_on mobile a c t = Element (SummaryView s))
      <-> exists addr counters balances,
            a = QuerySuccess addr /\ c = QuerySuccess counters
            /\ t = QuerySuccess balances).
Proof.
  destruct (render_cases mobile a c t)
    as [(HL & R) | [(HL & HE & R)
                   | (HL & HE & addr & counters & balances & -> & -> & ->)]].
  - rewrite R, HL. split; [tauto |]. split.
    + split; [discriminate | intros [H _]; discriminate H].
    + split.
      * intros [H | [s H]]; discriminate H.
      * intros (x & y & z & -> & -> & ->). discriminate HL.
  - rewrite R, HL, HE. split; [split; discriminate |].
    split; [tauto |]. split.
    + intros [H | [s H]]; discriminate H.
    + intros (x & y & z & -> & -> & ->). discriminate HE.
  - split; [| split].
    + simpl.
      destruct (render_success_cases mobile addr counters balances)
        as [[_ E] | (links & s & _ & E & _)]; rewrite E;
        split; discriminate.
    + simpl.
      destruct (render_success_cases mobile addr counters balances)
        as [[_ E] | (links & s & _ & E & _)]; rewrite E;
        (split; [discriminate | intros [_ H]; discriminate H]).
    + split; [eauto 10 |]. intros _.
      destruct (render_success_cases mobile addr counters balances)
        as [[_ E] | (links & s & _ & E & _)]; rewrite E; eauto.
Qed.

(** X11: the render throws exactly when all three queries have succeeded
    and the URL constructor rejects the link of an explorer that has an
    address path.  While a query is loading or in error no URL is built,
    and an explorer without address path is never passed to the
    constructor, so neither can make the render throw. *)
Theorem render_throws_iff_bad_explorer_url (mobile : bool)
    (a : UseQueryResult TAddress) (c : UseQueryResult AddressCounters)
    (t : UseQueryResult (list B)) :
  render_on mobile a c t = Throws_TypeError
  <-> (exists addr counters balances,
         a = QuerySuccess addr /\ c = QuerySuccess counters
         /\ t = QuerySuccess balances)
      /\ exists e, In e config
                   /\ JS.Boolean_optstr (address (paths e)) = true
                   /\ url_of e = None.
Proof.
  assert ((exists e, In e config
                     /\ JS.Boolean_optstr (address (paths e)) = true
                     /\ url_of e = None)
          <-> links_of (explorers config) = None) as Hbad.
  { rewrite explorer_links_None. unfold explorers.
    split; intros (e & H); exists e; rewrite filter_In in *; tauto. }
  rewrite Hbad.
  destruct (render_cases mobile a c t)
    as [(HL & R) | [(HL & HE & R)
                   | (HL & HE & addr & counters & balances & -> & -> & ->)]].
  - rewrite R. split; [discriminate |].
    intros [(x & y & z & -> & -> & ->) _]. discriminate HL.
  - rewrite R. split; [discriminate |].
    intros [(x & y & z & -> & -> & ->) _]. discriminate HE.
  - destruct (render_success_cases mobile addr counters balances)
      as [[Hl E] | (links & s & Hl & E & _)]; rewrite E, Hl.
    + split; [eauto 10 | reflexivity].
    + split; [discriminate | intros [_ H]; discriminate H].
Qed.

(** What a rendered summary was made from. *)
Lemma render_summary_from (mobile : bool)
    (a : UseQueryResult TAddress) (c : UseQueryResult AddressCounters)
    (t : UseQueryResult (list B)) (s : Summary B) :
  render_on mobile a c t = Element (SummaryView s) ->
  exists addr counters balances links,
    a = QuerySuccess addr /\ c = QuerySuccess counters
    /\ t = QuerySuccess balances
    /\ links_of (explorers config) = Some links
    /\ explorers_section s =
         match explorers config with
         | [] => None
         | _ :: _ => Some links
         end
    /\ grid s =
         ([ tokens_item B mobile balances;
            {| item_title := "Transactions";
               item_hint := "Number of transactions related to this address.";
               item_children :=
                 [ Text (toLocaleString
                           (JS.Number (transactions_count counters))) ] |};
            {| item_title := "Transfers";
               item_hint := "Number of transfers to/from this address.";
               item_children :=
                 [ Text (toLocaleString
                           (JS.Number
                              (token_transfers_count counters))) ] |};
            {| item_title := "Gas used";
               item_hint := "Gas used by the address.";
               item_children :=
                 [ Text (BigNumber_toFormat
                           (gas_usage_count counters)) ] |} ]
          ++ blocks_validated_item B toLocaleString
               (JS.Number (validations_count counters)))%list.
Proof.
  intros Hs.
  destruct (render_summary_inv _ _ _ _ _ _ _ _ _ _ _ Hs)
    as (addr & counters & balances & -> & -> & ->).
  pose proof (render_summary_grid _ _ _ _ _ _ _ _ _ _ _ Hs) as Hgrid.
  destruct (render_success_cases mobile addr counters balances)
    as [[_ E] | (links & s' & Hl & E & Hsec)];
    rewrite E in Hs; [discriminate Hs |].
  inversion Hs; subst s'.
  exists addr, counters, balances, links. auto 10.
Qed.

(** X12: every summary view has the cells Tokens, Transactions, Transfers
    and Gas used, in this order, followed by Blocks validated when its
    guard holds and by nothing else: four or five cells, no title twice.
    The count cells are there whether or not their counts parse. *)
Theorem summary_grid_titles (mobile : bool)
    (a : UseQueryResult TAddress) (c : UseQueryResult AddressCounters)
    (t : UseQueryResult (list B)) (s : Summary B)
    (Hs : render_on mobile a c t = Element (SummaryView s)) :
  exists counters,
    c = QuerySuccess counters
    /\ map item_title (grid s)
       = ([ "Tokens"; "Transactions"; "Transfers"; "Gas used" ]
          ++ if negb (JS.Object_is_NaN
                        (JS.Number (validations_count counters)))
                && JS.gt (JS.Number (validations_count counters)) JS.zero
             then [ "Blocks validated" ] else [])%list
    /\ NoDup (map item_title (grid s))
    /\ 4 <= length (grid s) <= 5.
Proof.
  destruct (render_summary_from mobile a c t s Hs)
    as (addr & counters & balances & links & _ & -> & _ & _ & _ & ->).
  exists counters. split; [reflexivity |].
  unfold blocks_validated_item.
  destruct (negb (JS.Object_is_NaN (JS.Number (validations_count counters)))
            && JS.gt (JS.Number (validations_count counters)) JS.zero);
    simpl; (split; [reflexivity |]); (split; [| lia]);
    repeat (apply NoDup_cons_2;
              [rewrite ?not_elem_of_cons;
               repeat split; (discriminate || apply not_elem_of_nil) |]);
    apply NoDup_nil_2.
Qed.

Lemma Forall2_In_left {X Y : Type} (P : X -> Y -> Prop) (l : list X)
    (l' : list Y) (x : X) :
  Forall2 P l l' -> In x l -> exists y, In y l' /\ P x y.
Proof.
  induction 1 as [| x0 y0 l l' Hxy _ IH]; intros Hin; [destruct Hin |].
  destruct Hin as [<- | Hin]; [exists y0; simpl; auto |].
  destruct (IH Hin) as (y & Hy & HP). exists y. simpl. auto.
Qed.

Lemma Forall2_map_eq {X Y Z : Type} (f : X -> Z) (g : Y -> Z) (l : list X)
    (l' : list Y) :
  Forall2 (fun x y => g y = f x) l l' -> map g l' = map f l.
Proof.
  induction 1 as [| x y l l' Hxy _ IH]; simpl; [reflexivity |].
  by rewrite Hxy, IH.
Qed.

(** X13: the explorers section of a summary view is left out exactly when
    no configured explorer has an address path; when it is there it is not
    empty and holds one link per such explorer, in the order of the
    configuration, titled by the explorer and keyed by its base URL, so
    never more links than configured explorers. *)
Theorem explorers_section_structure (mobile : bool)
    (a : UseQueryResult TAddress) (c : UseQueryResult AddressCounters)
    (t : UseQueryResult (list B)) (s : Summary B)
    (Hs : render_on mobile a c t = Element (SummaryView s)) :
  (explorers_section s = None <-> explorers config = [])
  /\ (forall links, explorers_section s = Some links ->
        links <> []
        /\ map link_title links = map title (explorers config)
        /\ map link_key links = map baseUrl (explorers config)
        /\ length links = length (explorers config)
        /\ length links <= length config).
Proof.
  destruct (render_summary_from mobile a c t s Hs)
    as (addr & counters & balances & links & _ & _ & _ & Hl & Hsec & _).
  pose proof (explorer_links_Forall2 _ _ _ _ Hl) as HF.
  rewrite Hsec. destruct (explorers config) as [| e l] eqn:He.
  - split; [tauto | discriminate].
  - split; [split; discriminate |].
    intros links' E. inversion E; subst links'.
    split; [inversion HF; discriminate |].
    split; [apply Forall2_map_eq;
            eapply Forall2_impl; [exact HF | simpl; tauto] |].
    split; [apply Forall2_map_eq;
            eapply Forall2_impl; [exact HF | simpl; tauto] |].
    pose proof (Forall2_length _ _ _ HF) as Hlen.
    split; [by rewrite Hlen |].
    rewrite <- Hlen, <- He. apply filter_length_le.
Qed.

(** X14: an explorer configured with an address path and without a
    transaction path is still linked: the string 'undefined' takes the
    place of the missing path, so its link is resolved from
    'undefined/' followed by the route id. *)
Theorem explorer_without_tx_path_links_to_undefined
    (e : NetworkExplorer) (links : list ExternalLink)
    (Hlinks : links_of (explorers config) = Some links)
    (Hin : In e config)
    (Haddr : JS.Boolean_optstr (address (paths e)) = true)
    (Htx : tx (paths e) = None) :
  exists k, In k links
            /\ link_title k = title e
            /\ link_key k = baseUrl e
            /\ URL_toString ("undefined/" ++ ToString_param id) (baseUrl e)
               = Some (link_href k).
Proof.
  assert (In e (explorers config)) as He
    by (unfold explorers; apply filter_In; auto).
  pose proof (explorer_links_Forall2 _ _ _ _ Hlinks) as HF.
  destruct (Forall2_In_left _ _ _ _ HF He) as (k & Hk & Hurl & Ht & Hb).
  exists k. rewrite Htx in Hurl. simpl in Hurl. auto.
Qed.

(** X15: the mobile flag changes the presentation only.  For the same
    query states the mobile and the desktop render are the same skeleton,
    notice or error, or both are summaries with the same explorer links,
    the same cell titles and the same cells after the Tokens cell; the
    hash is shown shortened on mobile and in full on desktop, while the
    icon and the text copied to the clipboard use the full hash on
    both. *)
Theorem mobile_changes_presentation_only
    (a : UseQueryResult TAddress) (c : UseQueryResult AddressCounters)
    (t : UseQueryResult (list B)) :
  (render_on true a c t = render_on false a c t
   /\ forall s, render_on true a c t <> Element (SummaryView s))
  \/ (exists sm sd addr,
        a = QuerySuccess addr
        /\ render_on true a c t = Element (SummaryView sm)
        /\ render_on false a c t = Element (SummaryView sd)
        /\ explorers_section sm = explorers_section sd
        /\ map item_title (grid sm) = map item_title (grid sd)
        /\ tl (grid sm) = tl (grid sd)
        /\ header_text (header sm) = HashStringShorten (hash addr)
        /\ header_text (header sd) = HashFull (hash addr)
        /\ AddressIcon_hash (header sm) = hash addr
        /\ AddressIcon_hash (header sd) = hash addr
        /\ CopyToClipboard_text (header sm) = hash addr
        /\ CopyToClipboard_text (header sd) = hash addr).
Proof.
  destruct (render_cases true a c t)
    as [(HL & R) | [(HL & HE & R)
                   | (HL & HE & addr & counters & balances & -> & -> & ->)]].
  - left. rewrite R. split; [| discriminate].
    destruct (render_cases false a c t)
      as [(_ & R') | [(HL' & _) | (HL' & _)]]; congruence.
  - left. rewrite R. split; [| discriminate].
    destruct (render_cases false a c t)
      as [(HL' & _) | [(_ & _ & R') | (_ & HE' & _)]]; congruence.
  - destruct (links_of (explorers config)) as [links |] eqn:Hl.
    + right.
      rewrite (render_success B true _ _ _ _ _ addr counters balances
                 links Hl),
              (render_success B false _ _ _ _ _ addr counters balances
                 links Hl).
      do 2 eexists. exists addr.
      split; [reflexivity |]. split; [reflexivity |].
      split; [reflexivity |]. simpl. auto 15.
    + left.
      destruct (render_success_cases true addr counters balances)
        as [[_ E] | (links & s & Hl' & _)]; [| congruence].
      destruct (render_success_cases false addr counters balances)
        as [[_ E'] | (links & s & Hl' & _)]; [| congruence].
      rewrite E, E'. split; [reflexivity | discriminate].
Qed.
End AddressDetails_more.

(** ** The further statements on samples *)

Section MoreSamples_props.
Import AddressDetails Samples MoreSamples.
Import ColumnsButton ColumnsButtonView UserProfileDesktopView.

Lemma click_opens_auth_dialog_until_closed_witness :
  "/txs" <> "/apps/[id]"
  /\ AuthModal
       (UserProfileDesktopView.UserProfileDesktop string string default_props
          None false false
          (UserProfileDesktop.click string None "/txs" closed))
     = Some email.
Proof.
  assert ("/txs" <> "/apps/[id]") as H by discriminate.
  split; [exact H |].
  exact (proj1 (click_opens_auth_dialog_until_closed string string
                  default_props "/txs" false false closed H)).
Defined.

Lemma click_opens_profile_menu_until_closed_witness :
  UserProfileDesktop.profileMenu_isOpen closed = false
  /\ Popover_isOpen
       (UserProfileDesktopView.UserProfileDesktop string string default_props
          (Some "alice") false false
          (UserProfileDesktop.click string (Some "alice") "/txs" closed))
     = true.
Proof.
  split; [reflexivity |].
  exact (proj1 (click_opens_profile_menu_until_closed string string
                  default_props "alice" "/txs" false false closed eq_refl)).
Defined.


Lemma clicks_flip_by_parity_witness :
  (heap_ab !! 1%positive = Some columns_ab
   /\ Forall (fun k => In k ["a"; "b"]) ["a"; "b"; "a"])
  /\ exists (c' : Mounted) (h' : heap) (M' : gmap string bool),
       clicks_then_rerenders ["a"; "b"; "a"]
         (mount ["a"; "b"] heap_ab 1%positive, heap_ab) = Some (c', h')
       /\ h' !! props_columns c' = Some M'
       /\ h' !! 1%positive = Some columns_ab.
Proof.
  assert (Forall (fun k => In k ["a"; "b"]) ["a"; "b"; "a"]) as HF
    by (repeat constructor; simpl; auto).
  split; [split; [reflexivity | exact HF] |].
  destruct (clicks_flip_by_parity ["a"; "b"] heap_ab 1%positive columns_ab
              ["a"; "b"; "a"] eq_refl HF)
    as (c' & h' & M' & H1 & H2 & H3 & _).
  exists c', h', M'. auto.
Defined.

Lemma second_click_without_render_drops_first_change_witness :
  (heap_ab !! 1%positive = Some columns_ab
   /\ columns_ab !! "a" = Some true /\ columns_ab !! "b" = Some false
   /\ In "a" ["a"; "b"] /\ In "b" ["a"; "b"] /\ "a" <> "b")
  /\ exists c1 h1 n1,
       click "a" (mount ["a"; "b"] heap_ab 1%positive) heap_ab
       = Some (c1, h1, [n1])
       /\ h1 !! n1 = Some (<["a" := false]> columns_ab).
Proof.
  assert ("a" <> "b") as Hne by discriminate.
  assert (In "a" ["a"; "b"]) as Ha by (simpl; auto).
  assert (In "b" ["a"; "b"]) as Hb by (simpl; auto).
  split; [repeat split; [exact Ha | exact Hb | exact Hne] |].
  destruct (second_click_without_render_drops_first_change ["a"; "b"]
              heap_ab 1%positive columns_ab "a" "b" true false
              eq_refl eq_refl eq_refl Ha Hb Hne)
    as (c1 & h1 & n1 & H1 & H2 & _).
  exists c1, h1, n1. auto.
Defined.


Lemma sample_summary_rendered :
  panel (QuerySuccess sample_address) (QuerySuccess (counters_with "5"))
        (QuerySuccess [])
  = Element (SummaryView sample_summary).
Proof. reflexivity. Qed.

Lemma summary_grid_titles_witness :
  panel (QuerySuccess sample_address) (QuerySuccess (counters_with "5"))
        (QuerySuccess [])
  = Element (SummaryView sample_summary)
  /\ NoDup (map item_title (grid sample_summary)).
Proof.
  split; [reflexivity |].
  destruct (summary_grid_titles string (QString "0xabc") two_explorers
              URL_join toLocaleString_en_US BigNumber_toFormat_id false
              (QuerySuccess sample_address)
              (QuerySuccess (counters_with "5")) (QuerySuccess [])
              sample_summary eq_refl)
    as (counters & _ & _ & Hnodup & _).
  exact Hnodup.
Defined.

Lemma explorers_section_structure_witness :
  panel (QuerySuccess sample_address) (QuerySuccess (counters_with "5"))
        (QuerySuccess [])
  = Element (SummaryView sample_summary)
  /\ length sample_links <= length two_explorers.
Proof.
  split; [reflexivity |].
  destruct (explorers_section_structure string (QString "0xabc")
              two_explorers URL_join toLocaleString_en_US
              BigNumber_toFormat_id false
              (QuerySuccess sample_address)
              (QuerySuccess (counters_with "5")) (QuerySuccess [])
              sample_summary eq_refl)
    as [_ H].
  destruct (H sample_links eq_refl) as (_ & _ & _ & _ & Hle).
  exact Hle.
Defined.

Lemma explorer_without_tx_path_links_to_undefined_witness :
  (explorer_links (QString "0xabc") URL_join
     (explorers [explorer_without_tx]) = Some [link_without_tx]
   /\ In explorer_without_tx [explorer_without_tx]
   /\ JS.Boolean_optstr (address (paths explorer_without_tx)) = true
   /\ tx (paths explorer_without_tx) = None)
  /\ exists k, In k [link_without_tx]
               /\ link_title k = "Scan"
               /\ URL_join "undefined/0xabc" "https://scan.example"
                  = Some (link_href k).
Proof.
  assert (In explorer_without_tx [explorer_without_tx]) as Hin
    by (simpl; auto).
  split; [repeat split; exact Hin |].
  destruct (explorer_without_tx_path_links_to_undefined (QString "0xabc")
              [explorer_without_tx] URL_join explorer_without_tx
              [link_without_tx] eq_refl Hin eq_refl eq_refl)
    as (k & Hk & Ht & _ & Hu).
  exists k. auto.
Defined.
End MoreSamples_props.
